(** * Authentication and authorization core of the employee HR portal

    A shallow embedding of the Express backend's auth module:

    - [auth.types.ts], [auth.constants.ts]      roles, messages, lifetimes
    - [auth.model.ts]                            the [User] collection
    - [auth.service.ts]                          login, refresh, logout
    - [auth.middleware.ts]                       [authenticate]
    - [rbac.middleware.ts]                       [requireRole] and friends

    The two npm dependencies the module calls, [jsonwebtoken] and [bcrypt],
    are not part of the repository.  They enter as type classes
    ([Jsonwebtoken], [Bcrypt]) holding the functions the code calls and the
    part of their documented behaviour the code relies on; every theorem
    about the service holds for any implementation of the classes.  A small
    executable implementation ([Model]) is used to run the code on concrete
    requests.

    Time is the wall clock in whole seconds ([Date.now() / 1000] rounded
    down, as [jsonwebtoken] reads it) and is passed explicitly. *)

From Stdlib Require Import ZArith Ascii String.
From stdpp Require Import base option countable strings list gmap.

Local Open Scope Z_scope.
Local Open Scope string_scope.

(** ** JavaScript string primitives used by the middleware *)

(** [s.startsWith(p)] *)
Definition startsWith (s p : string) : bool := String.prefix p s.

(** [s.substring(n)]: the suffix of [s] from index [n]. *)
Definition substring_from (n : nat) (s : string) : string :=
  String.substring n (String.length s - n) s.

(** ** auth.types.ts *)

Inductive UserRole : Set := SUPER_ADMIN | HR | MANAGER | EMPLOYEE.

#[global] Instance UserRole_eq_dec : EqDecision UserRole.
Proof. solve_decision. Defined.

Definition UserRole_to_nat (r : UserRole) : nat :=
  match r with SUPER_ADMIN => 0 | HR => 1 | MANAGER => 2 | EMPLOYEE => 3 end.

Definition UserRole_of_nat (n : nat) : option UserRole :=
  match n with
  | 0%nat => Some SUPER_ADMIN
  | 1%nat => Some HR
  | 2%nat => Some MANAGER
  | 3%nat => Some EMPLOYEE
  | _ => None
  end.

#[global] Program Instance UserRole_countable : Countable UserRole :=
  inj_countable UserRole_to_nat UserRole_of_nat _.
Next Obligation. by intros []. Qed.

(** The object handed to [jwt.sign].  [generateAccessToken] signs a full
    [JWTPayload] ([userId], [email], [role]); [generateRefreshToken] signs
    [{ userId }] only, so [email] and [role] may be absent from a signed
    object, and from what [jwt.verify] gives back (the code casts the result
    with [as JWTPayload], which checks nothing at run time). *)
Module JWTPayload.
Record t : Type := mk {
  userId : string;
  email : option string;
  role : option UserRole;
}.

#[global] Instance eq_dec : EqDecision t.
Proof. solve_decision. Defined.

#[global] Program Instance countable : Countable t :=
  inj_countable' (fun p => (userId p, email p, role p))
                 (fun '(u, e, r) => mk u e r) _.
Next Obligation. by intros []. Qed.
End JWTPayload.

(** What [jwt.verify] returns: the signed object plus the [iat] and [exp]
    fields [jwt.sign] added. *)
Module Decoded.
Record t : Type := mk {
  payload : JWTPayload.t;
  iat : Z;
  exp : Z;
}.
End Decoded.

Module LoginInput.
Record t : Type := mk { email : string; password : string }.
End LoginInput.

Module RefreshTokenInput.
Record t : Type := mk { refreshToken : string }.
End RefreshTokenInput.

Module PublicUser.
Record t : Type := mk { id : string; email : string; role : UserRole }.
End PublicUser.

Module LoginResponse.
Record t : Type := mk {
  accessToken : string;
  refreshToken : string;
  user : PublicUser.t;
}.
End LoginResponse.

(** ** auth.constants.ts *)

Module TOKEN_EXPIRATION.
Definition ACCESS_TOKEN : string := "15m".
Definition REFRESH_TOKEN : string := "7d".
End TOKEN_EXPIRATION.

Module AUTH_ERRORS.
Definition INVALID_CREDENTIALS : string := "Invalid email or password".
Definition USER_NOT_FOUND : string := "Invalid email or password".
Definition USER_INACTIVE : string :=
  "Account is inactive. Please contact administrator".
Definition TOKEN_EXPIRED : string := "Token has expired".
Definition TOKEN_INVALID : string := "Invalid token".
Definition REFRESH_TOKEN_INVALID : string := "Invalid refresh token".
Definition UNAUTHORIZED : string := "Unauthorized access".
Definition FORBIDDEN : string := "Insufficient permissions".
End AUTH_ERRORS.

(** ** config/env.ts: the validated environment *)

Record Env : Type := {
  JWT_SECRET : string;
  JWT_REFRESH_SECRET : string;
}.

(** ** Exceptions

    [jsonwebtoken] throws three classes of its own.  [TokenExpiredError] and
    [NotBeforeError] are both derived from [JsonWebTokenError] (their
    prototypes are created from [JsonWebTokenError.prototype]), so
    [e instanceof jwt.JsonWebTokenError] holds for all three.  The service
    itself throws plain [Error] objects. *)

Inductive JwtError : Type :=
  | JsonWebTokenError (message : string)
  | NotBeforeError (message : string)
  | TokenExpiredError (message : string) (expiredAt : Z).

Inductive Exception : Type :=
  | Jwt (e : JwtError)
  | Error (message : string).

Definition instanceof_JsonWebTokenError (error : Exception) : bool :=
  match error with
  | Jwt _ => true
  | Error _ => false
  end.

Definition instanceof_TokenExpiredError (error : Exception) : bool :=
  match error with
  | Jwt (TokenExpiredError _ _) => true
  | _ => false
  end.

(** ** The [ms] time-span notation

    [jwt.sign] turns a string [expiresIn] into milliseconds with the [ms]
    package and sets [exp = iat + floor(ms / 1000)].  The fragment modelled
    here is a non-negative decimal integer followed by one of the short
    units; [None] stands for any other string. *)

Definition is_digit (c : ascii) : bool :=
  ((48 <=? nat_of_ascii c) && (nat_of_ascii c <=? 57))%nat.

Fixpoint read_digits (acc : Z) (s : string) : Z * string :=
  match s with
  | String c rest =>
      if is_digit c
      then read_digits (10 * acc + Z.of_nat (nat_of_ascii c - 48)) rest
      else (acc, s)
  | EmptyString => (acc, s)
  end.

Definition unit_ms (u : string) : option Z :=
  if decide (u = "") then Some 1
  else if decide (u = "ms") then Some 1
  else if decide (u = "s") then Some 1000
  else if decide (u = "m") then Some 60000
  else if decide (u = "h") then Some 3600000
  else if decide (u = "d") then Some 86400000
  else if decide (u = "w") then Some 604800000
  else None.

Definition ms (span : string) : option Z :=
  match span with
  | String c _ =>
      if is_digit c
      then let '(n, u) := read_digits 0 span in
           match unit_ms u with Some k => Some (n * k) | None => None end
      else None
  | EmptyString => None
  end.

(** ** The two libraries *)

(** [jwt.sign(payload, secret, { expiresIn })] at clock [now] and
    [jwt.verify(token, secret)] at clock [now].  [jwt_verify_sign] is the
    behaviour the service depends on: a token verifies under the secret it
    was signed with and under no other (signatures are taken to be
    unforgeable), the signature is checked before the expiry, and a token is
    expired from the second [exp] on. *)
Class Jsonwebtoken : Type := {
  jwt_sign : JWTPayload.t -> string -> string -> Z -> string;
  jwt_verify : string -> string -> Z -> JwtError + Decoded.t;
  jwt_verify_sign :
    forall (p : JWTPayload.t) (secret secret' span : string) (d t now : Z),
      ms span = Some d ->
      jwt_verify (jwt_sign p secret span t) secret' now =
        if decide (secret' = secret)
        then if decide (t + d / 1000 <= now)
             then inl (TokenExpiredError "jwt expired" (t + d / 1000))
             else inr (Decoded.mk p t (t + d / 1000))
        else inl (JsonWebTokenError "invalid signature");
}.

(** [bcrypt.compare(candidate, hash)]. *)
Class Bcrypt : Type := {
  bcrypt_compare : string -> string -> bool;
}.

(** ** auth.model.ts: the [User] collection

    A document of the collection, without its [_id] (the key it is stored
    under) and without the [createdAt] / [updatedAt] stamps the store keeps.
    [password] is the bcrypt digest written by the pre-save hook.  The hook
    re-hashes only when [password] was modified, which [loginUser] never does,
    so saving a loaded document leaves the digest alone.  [password] and
    [refreshToken] are [select: false]; the queries below that need them
    ask for them ([.select('+password')], [.select('+refreshToken')]), so a
    loaded document is modelled with all its fields. *)
Module IUserDocument.
Record t : Type := mk {
  email : string;
  password : string;
  role : UserRole;
  isActive : bool;
  refreshToken : option string;
}.

Definition set_refreshToken (v : option string) (u : t) : t :=
  mk (email u) (password u) (role u) (isActive u) v.
End IUserDocument.

(** The collection, keyed by [_id.toString()]. *)
Abbreviation Users := (gmap string IUserDocument.t).

(** ** Asynchronous service functions

    An [async] function of the service reads and writes the collection and
    either returns or rejects with an exception.  Writes made before a
    rejection stay. *)
Definition Async (A : Type) : Type := Users -> (Exception + A) * Users.

Definition ret {A : Type} (a : A) : Async A := fun db => (inr a, db).

Definition throw {A : Type} (e : Exception) : Async A := fun db => (inl e, db).

Definition bind {A B : Type} (m : Async A) (k : A -> Async B) : Async B :=
  fun db =>
    match m db with
    | (inr a, db') => k a db'
    | (inl e, db') => (inl e, db')
    end.

(** [try { body } catch (error) { handler }] *)
Definition try_catch {A : Type} (body : Async A)
    (handler : Exception -> Async A) : Async A :=
  fun db =>
    match body db with
    | (inr a, db') => (inr a, db')
    | (inl e, db') => handler e db'
    end.

(** A synchronous call that may throw one of the token library's errors. *)
Definition lift_jwt {A : Type} (r : JwtError + A) : Async A :=
  match r with
  | inr a => ret a
  | inl e => throw (Jwt e)
  end.

Declare Scope async_scope.
Delimit Scope async_scope with async.
Notation "'let*' x ':=' m 'in' k" := (bind m (fun x => k))
  (at level 10, x pattern, m at level 100, k at level 200) : async_scope.
Notation "m ';;' k" := (bind m (fun _ => k))
  (at level 100, k at level 200, right associativity) : async_scope.

(** *** Queries of the collection *)

(** [User.findOne({ email })].  The schema puts a unique index on [email],
    so at most one document matches; the first match in key order is
    returned. *)
Definition User_findOne_email (e : string)
    : Async (option (string * IUserDocument.t)) :=
  fun db =>
    (inr (snd <$> list_find (fun kv => IUserDocument.email (snd kv) = e)
                            (map_to_list db)),
     db).

(** The unique index itself: no two documents share an address. *)
Definition unique_email_index (db : Users) : Prop :=
  map_Forall (fun id1 u1 =>
    map_Forall (fun id2 u2 =>
      IUserDocument.email u1 = IUserDocument.email u2 -> id1 = id2) db) db.

#[global] Instance unique_email_index_dec (db : Users) :
  Decision (unique_email_index db).
Proof. unfold unique_email_index. apply _. Defined.

(** No document has the address [e]. *)
Definition no_account_with_email (e : string) (db : Users) : Prop :=
  map_Forall (fun _ u => IUserDocument.email u <> e) db.

#[global] Instance no_account_with_email_dec (e : string) (db : Users) :
  Decision (no_account_with_email e db).
Proof. unfold no_account_with_email. apply _. Defined.

(** [User.findById(id)] *)
Definition User_findById (id : string) : Async (option IUserDocument.t) :=
  fun db => (inr (db !! id), db).

(** [user.save()] for a document loaded under [id]. *)
Definition User_save (id : string) (u : IUserDocument.t) : Async unit :=
  fun db => (inr tt, <[id := u]> db).

(** [User.findByIdAndUpdate(id, { $unset: { refreshToken: 1 } })]: removes
    the field from the document with that [_id] when there is one, and does
    nothing otherwise. *)
Definition User_findByIdAndUpdate_unset_refreshToken (id : string)
    : Async unit :=
  fun db => (inr tt, alter (IUserDocument.set_refreshToken None) id db).

(** ** Requests and middleware outcomes *)

(** The part of an Express request the two middlewares look at:
    [req.headers.authorization] and [req.user]. *)
Module AuthenticatedRequest.
Record t : Type := mk {
  authorization : option string;
  user : option Decoded.t;
}.
End AuthenticatedRequest.

(** What a middleware does with a request: answer it with
    [res.status(s).json({ success: false, error: { message } })], pass it on
    with [next()], or hand an error to the error middleware with
    [next(error)]. *)
Inductive Outcome : Type :=
  | Respond (status : Z) (message : string)
  | Next (req : AuthenticatedRequest.t)
  | NextError (error : Exception).

(** [allowedRoles.includes(req.user.role)]; an absent [role] is in no list
    of roles. *)
Definition includes (allowedRoles : list UserRole) (r : option UserRole)
    : bool :=
  match r with
  | Some x => bool_decide (x ∈ allowedRoles)
  | None => false
  end.

(** ** rbac.middleware.ts *)

Definition requireRole (allowedRoles : list UserRole)
    (req : AuthenticatedRequest.t) : Outcome :=
  match AuthenticatedRequest.user req with
  | None => Respond 401 AUTH_ERRORS.UNAUTHORIZED
  | Some user =>
      if negb (includes allowedRoles
                 (JWTPayload.role (Decoded.payload user)))
      then Respond 403 AUTH_ERRORS.FORBIDDEN
      else Next req
  end.

Definition requireSuperAdmin := requireRole [SUPER_ADMIN].
Definition requireHR := requireRole [HR; SUPER_ADMIN].
Definition requireManager := requireRole [MANAGER; HR; SUPER_ADMIN].
Definition requireEmployee :=
  requireRole [EMPLOYEE; MANAGER; HR; SUPER_ADMIN].

Section Service.
Context (env : Env) {jwt : Jsonwebtoken} {bcrypt : Bcrypt}.

Local Open Scope async_scope.

(** ** auth.service.ts *)

Definition generateAccessToken (now : Z) (payload : JWTPayload.t) : string :=
  jwt_sign payload (JWT_SECRET env) TOKEN_EXPIRATION.ACCESS_TOKEN now.

Definition generateRefreshToken (now : Z) (userId : string) : string :=
  jwt_sign (JWTPayload.mk userId None None) (JWT_REFRESH_SECRET env)
           TOKEN_EXPIRATION.REFRESH_TOKEN now.

(** The instance method [user.comparePassword(candidate)] of the schema
    (auth.model.ts). *)
Definition comparePassword (user : IUserDocument.t) (candidate : string)
    : bool :=
  bcrypt_compare candidate (IUserDocument.password user).

(** [input] is the request body after [loginSchema] has validated it. *)
Definition loginUser (now : Z) (input : LoginInput.t)
    : Async LoginResponse.t :=
  let* found := User_findOne_email (LoginInput.email input) in
  match found with
  | None => throw (Error AUTH_ERRORS.INVALID_CREDENTIALS)
  | Some (_id, user) =>
      if negb (IUserDocument.isActive user)
      then throw (Error AUTH_ERRORS.USER_INACTIVE)
      else
        let isPasswordValid :=
          comparePassword user (LoginInput.password input) in
        if negb isPasswordValid
        then throw (Error AUTH_ERRORS.INVALID_CREDENTIALS)
        else
          let payload :=
            JWTPayload.mk _id (Some (IUserDocument.email user))
                          (Some (IUserDocument.role user)) in
          let accessToken := generateAccessToken now payload in
          let refreshToken := generateRefreshToken now _id in
          User_save _id
            (IUserDocument.set_refreshToken (Some refreshToken) user);;
          ret (LoginResponse.mk accessToken refreshToken
                 (PublicUser.mk _id (IUserDocument.email user)
                                (IUserDocument.role user)))
  end.

(** Returns the [accessToken] of the result object.  [user._id] of the
    document found by [findById] is the id it was looked up with. *)
Definition refreshAccessToken (now : Z) (input : RefreshTokenInput.t)
    : Async string :=
  let token := RefreshTokenInput.refreshToken input in
  try_catch
    (let* decoded := lift_jwt (jwt_verify token (JWT_REFRESH_SECRET env) now) in
     let _id := JWTPayload.userId (Decoded.payload decoded) in
     let* found := User_findById _id in
     match found with
     | None => throw (Error AUTH_ERRORS.USER_INACTIVE)
     | Some user =>
         if negb (IUserDocument.isActive user)
         then throw (Error AUTH_ERRORS.USER_INACTIVE)
         else if negb (bool_decide (IUserDocument.refreshToken user = Some token))
         then throw (Error AUTH_ERRORS.REFRESH_TOKEN_INVALID)
         else
           let payload :=
             JWTPayload.mk _id (Some (IUserDocument.email user))
                           (Some (IUserDocument.role user)) in
           ret (generateAccessToken now payload)
     end)
    (fun error =>
       if instanceof_JsonWebTokenError error
       then throw (Error AUTH_ERRORS.REFRESH_TOKEN_INVALID)
       else throw error).

Definition logoutUser (userId : string) : Async unit :=
  User_findByIdAndUpdate_unset_refreshToken userId.

(** ** auth.middleware.ts *)

(** The [try] block of [authenticate]: an outcome, or the exception that
    [jwt.verify] threw. *)
Definition authenticate_body (now : Z) (req : AuthenticatedRequest.t)
    : Exception + Outcome :=
  match AuthenticatedRequest.authorization req with
  | None => inr (Respond 401 AUTH_ERRORS.UNAUTHORIZED)
  | Some authHeader =>
      if bool_decide (authHeader = "") || negb (startsWith authHeader "Bearer ")
      then inr (Respond 401 AUTH_ERRORS.UNAUTHORIZED)
      else
        let token := substring_from 7 authHeader in
        match jwt_verify token (JWT_SECRET env) now with
        | inl e => inl (Jwt e)
        | inr decoded =>
            inr (Next (AuthenticatedRequest.mk
                         (AuthenticatedRequest.authorization req)
                         (Some decoded)))
        end
  end.

Definition authenticate (now : Z) (req : AuthenticatedRequest.t) : Outcome :=
  match authenticate_body now req with
  | inr outcome => outcome
  | inl error =>
      if instanceof_JsonWebTokenError error
      then Respond 401 AUTH_ERRORS.TOKEN_INVALID
      else if instanceof_TokenExpiredError error
      then Respond 401 AUTH_ERRORS.TOKEN_EXPIRED
      else NextError error
  end.

End Service.

(** ** An executable implementation of the two libraries

    Tokens are written as strings of binary digits: the digits of the
    [Countable] code of (secret, payload, iat, exp).  The secret stands for
    the signature it produces, so a token verifies under exactly the secret
    it was signed with.  A string that is not the code of such a tuple is
    malformed. *)
Module Model.

Fixpoint pos_to_bits (p : positive) : string :=
  match p with
  | xH => EmptyString
  | xO q => String "0" (pos_to_bits q)
  | xI q => String "1" (pos_to_bits q)
  end.

Fixpoint bits_to_pos (s : string) : option positive :=
  match s with
  | EmptyString => Some xH
  | String c rest =>
      if decide (c = "0"%char) then xO <$> bits_to_pos rest
      else if decide (c = "1"%char) then xI <$> bits_to_pos rest
      else None
  end.

Definition seconds (span : string) : Z := default 0 (ms span) / 1000.

Definition sign (p : JWTPayload.t) (secret span : string) (t : Z) : string :=
  pos_to_bits (encode (secret, p, t, t + seconds span)).

Definition parse (token : string)
    : option (string * JWTPayload.t * Z * Z) :=
  bits_to_pos token ≫= decode.

Definition verify (token secret : string) (now : Z) : JwtError + Decoded.t :=
  match parse token with
  | None => inl (JsonWebTokenError "jwt malformed")
  | Some (signedWith, p, t, e) =>
      if decide (secret = signedWith)
      then if decide (e <= now)
           then inl (TokenExpiredError "jwt expired" e)
           else inr (Decoded.mk p t e)
      else inl (JsonWebTokenError "invalid signature")
  end.

#[global] Program Instance jsonwebtoken : Jsonwebtoken :=
  {| jwt_sign := sign; jwt_verify := verify |}.
Next Obligation.
  intros p secret secret' span d t now Hms.
  assert (Hbits : forall q, bits_to_pos (pos_to_bits q) = Some q).
  { induction q as [q IH|q IH|]; simpl; [rewrite IH..|]; done. }
  unfold verify, parse, sign, seconds.
  rewrite Hbits, Hms. simpl. rewrite decode_encode. done.
Qed.

(** A digest is the plaintext behind a fixed prefix; enough to tell a
    matching password from a wrong one. *)
Definition hash (plaintext : string) : string := "$2b$10$" +:+ plaintext.

#[global] Instance bcrypt : Bcrypt :=
  {| bcrypt_compare candidate digest := bool_decide (digest = hash candidate) |}.

End Model.

(** ** Sample data for running the code *)
Module Sample.

Definition env : Env :=
  {| JWT_SECRET := "access-secret-of-at-least-32-characters";
     JWT_REFRESH_SECRET := "refresh-secret-of-at-least-32-characters" |}.

Definition alice : IUserDocument.t :=
  IUserDocument.mk "alice@example.com" (Model.hash "Str0ng!pass") HR true None.

(** A deactivated account that still holds the refresh token of an earlier
    login at clock 50. *)
Definition bob_old_token : string :=
  generateRefreshToken (jwt := Model.jsonwebtoken) env 50 "b0b".

Definition bob : IUserDocument.t :=
  IUserDocument.mk "bob@example.com" (Model.hash "S3cret!bob") EMPLOYEE false
    (Some bob_old_token).

Definition db : Users := <["a11ce" := alice]> (<["b0b" := bob]> ∅).

Definition bearer (token : string) : AuthenticatedRequest.t :=
  AuthenticatedRequest.mk (Some ("Bearer " +:+ token)) None.

Definition alice_claims : JWTPayload.t :=
  JWTPayload.mk "a11ce" (Some "alice@example.com") (Some HR).

End Sample.

(** * The rest of the backend around the session core

    [registerUser] and [getUserById] of the service, the schema validators
    and hooks of [auth.model.ts], the password rules of the request schemas,
    the controllers and routes of the auth module with the error middleware
    behind them, and the admin HR module ([hr.service.ts], [hr.routes.ts])
    that toggles [isActive].  Strings are taken to be ASCII.  The documents
    of the store are taken to satisfy the schema (they were validated when
    they were written), so that saving a loaded document back passes
    validation, as [User_save] has it. *)

(** ** More JavaScript string primitives *)

Definition is_upper (c : ascii) : bool :=
  ((65 <=? nat_of_ascii c) && (nat_of_ascii c <=? 90))%nat.

Definition is_lower (c : ascii) : bool :=
  ((97 <=? nat_of_ascii c) && (nat_of_ascii c <=? 122))%nat.

Definition char_toLowerCase (c : ascii) : ascii :=
  if is_upper c then ascii_of_nat (nat_of_ascii c + 32) else c.

(** [s.toLowerCase()] *)
Fixpoint toLowerCase (s : string) : string :=
  match s with
  | EmptyString => EmptyString
  | String c rest => String (char_toLowerCase c) (toLowerCase rest)
  end.

Fixpoint trimStart (s : string) : string :=
  match s with
  | EmptyString => EmptyString
  | String c rest => if Ascii.is_space c then trimStart rest else s
  end.

(** [s.trim()] *)
Definition trim (s : string) : string :=
  String.rev (trimStart (String.rev (trimStart s))).

(** [/[class]/.test(s)]: some character of [s] is in the class. *)
Fixpoint test_class (class : ascii -> bool) (s : string) : bool :=
  match s with
  | EmptyString => false
  | String c rest => class c || test_class class rest
  end.

(** Some index [i >= 1] of [s] (any index when [seen]) holds [sep] and the
    text after it satisfies [after]. *)
Fixpoint split_at (sep : ascii) (after : string -> bool) (seen : bool)
    (s : string) : bool :=
  match s with
  | EmptyString => false
  | String c rest =>
      (seen && bool_decide (c = sep) && after rest)
      || split_at sep after true rest
  end.

(** ** auth.constants.ts, continued *)

Module PASSWORD_REQUIREMENTS.
Definition MIN_LENGTH : nat := 8.
Definition REQUIRE_UPPERCASE : bool := true.
Definition REQUIRE_LOWERCASE : bool := true.
Definition REQUIRE_NUMBER : bool := true.
Definition REQUIRE_SPECIAL_CHAR : bool := true.
End PASSWORD_REQUIREMENTS.

Definition BCRYPT_SALT_ROUNDS : Z := 10.

(** ** auth.validation.ts: the password rules of [registerSchema]

    (the same chain of checks is the [password] rule of [createHrSchema]).
    A zod string schema runs all its checks and reports every failed one, in
    the order they were declared. *)
Module registerSchema.
Definition password_issues (password : string) : list string :=
  (if (String.length password <? 8)%nat
   then ["Password must be at least 8 characters"] else [])
  ++ (if test_class is_upper password then []
      else ["Password must contain at least one uppercase letter"])
  ++ (if test_class is_lower password then []
      else ["Password must contain at least one lowercase letter"])
  ++ (if test_class is_digit password then []
      else ["Password must contain at least one number"])
  ++ (if test_class
           (fun c => negb (is_upper c || is_lower c || is_digit c)) password
      then []
      else ["Password must contain at least one special character"]).
End registerSchema.

(** ** auth.model.ts, continued: setters, validators, the pre-save hook *)

Module userSchema.

(** [lowercase: true, trim: true] on [email]. *)
Definition email_setters (email : string) : string := trim (toLowerCase email).

(** [match: /^\S+@\S+\.\S+$/] on [email]. *)
Definition email_match (email : string) : bool :=
  negb (test_class Ascii.is_space email)
  && split_at "@"%char
       (split_at "."%char (fun tld => negb (bool_decide (tld = ""))) false)
       false email.

(** [minlength: 8] on [password]; it is the plaintext that is validated,
    validation being the first of the pre-save steps. *)
Definition password_minlength (password : string) : bool :=
  (8 <=? String.length password)%nat.

(** The validators of the two string paths ([required] fails on the empty
    string, which the other validator of each path rejects too). *)
Definition validate (email password : string) : bool :=
  email_match email && password_minlength password.

End userSchema.

(** [bcrypt.hash(plaintext, rounds)]; the salt it draws is made explicit.
    A digest verifies against the plaintext it was made from. *)
Class BcryptHash {bcrypt : Bcrypt} : Type := {
  bcrypt_hash : string -> Z -> string -> string;
  bcrypt_compare_hash :
    forall (plaintext salt : string) (rounds : Z),
      bcrypt_compare plaintext (bcrypt_hash plaintext rounds salt) = true;
}.

(** The message texts of the two errors [User.create] can reject with, a
    Mongoose [ValidationError] and the server's duplicate-key error, are not
    modelled; both are plain errors as far as [instanceof] tests go. *)
Class MongooseErrors : Type := {
  ValidationError_message : string -> string -> string;
  DuplicateKey_message : string -> string;
}.

(** What the services return for an account: the document turned into a
    plain object with [password] and [refreshToken] deleted
    ([getUserById], [registerUser]), or the [HrUserResponse] literal of the
    HR service; the timestamps are left out as in [IUserDocument]. *)
Module UserObject.
Record t : Type := mk {
  _id : string;
  email : string;
  role : UserRole;
  isActive : bool;
}.
End UserObject.

Module RegisterInput.
Record t : Type := mk {
  email : string;
  password : string;
  role : option UserRole;
}.
End RegisterInput.

Module CreateHrInput.
Record t : Type := mk {
  email : string;
  name : string;
  password : option string;
}.
End CreateHrInput.

Module UpdateHrStatusInput.
Record t : Type := mk { isActive : bool }.
End UpdateHrStatusInput.

Definition set_isActive (v : bool) (u : IUserDocument.t) : IUserDocument.t :=
  IUserDocument.mk (IUserDocument.email u) (IUserDocument.password u)
    (IUserDocument.role u) v (IUserDocument.refreshToken u).

(** ** hr.service.ts: [generateRandomPassword]

    [randomBytes] is what [crypto.randomBytes(16)] returned.  Reading past
    the end of the buffer gives [undefined], [undefined % 70] is [NaN],
    [charset[NaN]] is [undefined], and appending that to a string appends
    the text "undefined". *)
Definition charset : string :=
  "abcdefghijklmnopqrstuvwxyzABCDEFGHIJKLMNOPQRSTUVWXYZ0123456789!@#$%^&*".

Definition charset_pick (randomBytes : list Byte.byte) (i : nat) : string :=
  match randomBytes !! i with
  | Some b =>
      match String.get (Byte.to_nat b mod String.length charset) charset with
      | Some c => String c EmptyString
      | None => "undefined"
      end
  | None => "undefined"
  end.

Definition generateRandomPassword (randomBytes : list Byte.byte) : string :=
  foldl (fun password i => password +:+ charset_pick randomBytes i)
        EmptyString (seq 0 16).

(** ** The untyped role gate

    [requireRole] takes its roles as rest parameters.  The server is run
    with [tsx], which erases types without checking them, so a caller can
    hand it anything; [hr.routes.ts] calls [requireRole([UserRole.SUPER_ADMIN])],
    which makes [allowedRoles] an array holding one array.  [includes]
    compares with SameValueZero: a role string equals an element only when
    the element is that string. *)
Inductive RoleArgument : Type :=
  | RoleString (r : UserRole)
  | RoleArray (rs : list UserRole).

#[global] Instance RoleArgument_eq_dec : EqDecision RoleArgument.
Proof. solve_decision. Defined.

Definition includes_untyped (allowedRoles : list RoleArgument)
    (r : option UserRole) : bool :=
  match r with
  | Some x => bool_decide (RoleString x ∈ allowedRoles)
  | None => false
  end.

Definition requireRole_untyped (allowedRoles : list RoleArgument)
    (req : AuthenticatedRequest.t) : Outcome :=
  match AuthenticatedRequest.user req with
  | None => Respond 401 AUTH_ERRORS.UNAUTHORIZED
  | Some user =>
      if negb (includes_untyped allowedRoles
                 (JWTPayload.role (Decoded.payload user)))
      then Respond 403 AUTH_ERRORS.FORBIDDEN
      else Next req
  end.

(** ** utils/response.util.ts and middlewares/error.middleware.ts *)

Module ApiSuccessResponse.
Record t (A : Type) : Type := mk {
  statusCode : Z;
  data : A;
  message : option string;
}.
Arguments mk {A} _ _ _.
Arguments statusCode {A} _.
Arguments data {A} _.
Arguments message {A} _.
End ApiSuccessResponse.

(** [sendSuccess(res, data, statusCode, message)]: the message is attached
    only when it is truthy. *)
Definition sendSuccess {A : Type} (data : A) (statusCode : Z)
    (message : option string) : ApiSuccessResponse.t A :=
  ApiSuccessResponse.mk statusCode data
    (match message with
     | Some m => if bool_decide (m = "") then None else Some m
     | None => None
     end).

(** An error as the error middleware sees it: the exception and the
    [statusCode] property it may have been given. *)
Module AppError.
Record t : Type := mk {
  error : Exception;
  statusCode : option Z;
}.
End AppError.

Definition Exception_message (e : Exception) : string :=
  match e with
  | Error m => m
  | Jwt (JsonWebTokenError m) => m
  | Jwt (NotBeforeError m) => m
  | Jwt (TokenExpiredError m _) => m
  end.

(** What reaches the client.  [Refused] is written by a middleware
    ([authenticate], [requireRole]); [Failed] by [errorMiddleware], whose
    body also carries a timestamp and, in development, the stack. *)
Inductive HttpReply (A : Type) : Type :=
  | Success (response : ApiSuccessResponse.t A)
  | Refused (status : Z) (message : string)
  | Failed (status : Z) (message : string).
Arguments Success {A} _.
Arguments Refused {A} _ _.
Arguments Failed {A} _ _.

(** [err.statusCode || 500] and [err.message || 'Internal server error']. *)
Definition errorMiddleware {A : Type} (err : AppError.t) : HttpReply A :=
  let statusCode :=
    match AppError.statusCode err with
    | Some s => if bool_decide (s = 0) then 500 else s
    | None => 500
    end in
  let message := Exception_message (AppError.error err) in
  Failed statusCode
    (if bool_decide (message = "") then "Internal server error" else message).


Section Application.
Context (env : Env) {jwt : Jsonwebtoken} {bcrypt : Bcrypt}
        {hashing : BcryptHash} {mongoose : MongooseErrors}.

Local Open Scope async_scope.

(** [User.create({ email, password, role, isActive })].  [_id] is the
    ObjectId the driver generates for the new document and [salt] the salt
    bcrypt draws.  The setters run, the document is validated, the pre-save
    hook hashes the (new, hence modified) password, and the insert is
    refused when the [_id] or, by the unique index, the address is taken. *)
Definition User_create (_id salt email password : string) (role : UserRole)
    (isActive : bool) : Async IUserDocument.t :=
  fun db =>
    let email' := userSchema.email_setters email in
    if negb (userSchema.validate email' password)
    then (inl (Error (ValidationError_message email' password)), db)
    else
      let hashedPassword := bcrypt_hash password BCRYPT_SALT_ROUNDS salt in
      let doc := IUserDocument.mk email' hashedPassword role isActive None in
      if bool_decide (is_Some (db !! _id))
         || bool_decide (~ no_account_with_email email' db)
      then (inl (Error (DuplicateKey_message email')), db)
      else (inr doc, <[_id := doc]> db).

(** ** auth.service.ts, continued *)

Definition registerUser (_id salt : string) (input : RegisterInput.t)
    : Async UserObject.t :=
  let* existingUser := User_findOne_email (RegisterInput.email input) in
  match existingUser with
  | Some _ => throw (Error "User with this email already exists")
  | None =>
      let* user :=
        User_create _id salt (RegisterInput.email input)
          (RegisterInput.password input)
          (default EMPLOYEE (RegisterInput.role input)) true in
      ret (UserObject.mk _id (IUserDocument.email user)
             (IUserDocument.role user) (IUserDocument.isActive user))
  end.

Definition getUserById (userId : string) : Async UserObject.t :=
  let* found := User_findById userId in
  match found with
  | None => throw (Error "User not found")
  | Some user =>
      if negb (IUserDocument.isActive user)
      then throw (Error "User not found")
      else ret (UserObject.mk userId (IUserDocument.email user)
                  (IUserDocument.role user) (IUserDocument.isActive user))
  end.

(** ** hr.service.ts *)

Definition createHrUser (_id salt : string) (randomBytes : list Byte.byte)
    (input : CreateHrInput.t) : Async UserObject.t :=
  let* existingUser := User_findOne_email (CreateHrInput.email input) in
  match existingUser with
  | Some _ => throw (Error "User with this email already exists")
  | None =>
      let password :=
        match CreateHrInput.password input with
        | Some p =>
            if bool_decide (p = "") then generateRandomPassword randomBytes
            else p
        | None => generateRandomPassword randomBytes
        end in
      let* user :=
        User_create _id salt (CreateHrInput.email input) password HR true in
      ret (UserObject.mk _id (IUserDocument.email user)
             (IUserDocument.role user) (IUserDocument.isActive user))
  end.

Definition updateHrStatus (userId : string) (input : UpdateHrStatusInput.t)
    : Async UserObject.t :=
  let* found := User_findById userId in
  match found with
  | None => throw (Error "User not found")
  | Some user =>
      if negb (bool_decide (IUserDocument.role user = HR))
      then throw (Error "User is not an HR user")
      else
        let user' := set_isActive (UpdateHrStatusInput.isActive input) user in
        User_save userId user';;
        ret (UserObject.mk userId (IUserDocument.email user')
               (IUserDocument.role user') (IUserDocument.isActive user'))
  end.

(** ** auth.controller.ts

    Every controller is [try { ... sendSuccess(...) } catch (error)
    { next(error) }]: it either sends a success response or hands the error
    on; the rejection of the [Async] value below is that [next(error)].  The
    body of a request has been through [validateRequest]. *)

Definition loginController (now : Z) (body : LoginInput.t)
    : Async (ApiSuccessResponse.t LoginResponse.t) :=
  let* result := loginUser env now body in
  ret (sendSuccess result 200 None).

Definition registerController (_id salt : string) (body : RegisterInput.t)
    : Async (ApiSuccessResponse.t (string * UserObject.t)) :=
  let* user := registerUser _id salt body in
  ret (sendSuccess ("User created successfully", user) 201 None).

Definition refreshTokenController (now : Z) (body : RefreshTokenInput.t)
    : Async (ApiSuccessResponse.t string) :=
  let* result := refreshAccessToken env now body in
  ret (sendSuccess result 200 None).

(** [(req as any).user?.userId], [undefined] when there is no [req.user]. *)
Definition req_userId (req : AuthenticatedRequest.t) : option string :=
  (fun user => JWTPayload.userId (Decoded.payload user))
    <$> AuthenticatedRequest.user req.

(** [!userId] *)
Definition falsy (userId : option string) : bool :=
  match userId with
  | Some s => bool_decide (s = "")
  | None => true
  end.

Definition logoutController (req : AuthenticatedRequest.t)
    : Async (ApiSuccessResponse.t string) :=
  let userId := req_userId req in
  if falsy userId
  then throw (Error AUTH_ERRORS.UNAUTHORIZED)
  else
    logoutUser (default "" userId);;
    ret (sendSuccess "Logged out successfully" 200 None).

Definition getCurrentUserController (req : AuthenticatedRequest.t)
    : Async (ApiSuccessResponse.t UserObject.t) :=
  let userId := req_userId req in
  if falsy userId
  then throw (Error AUTH_ERRORS.UNAUTHORIZED)
  else
    let* user := getUserById (default "" userId) in
    ret (sendSuccess user 200 None).

(** ** auth.routes.ts under app.ts

    The routes from the point where [validateRequest] has accepted the body
    (a body it rejects is answered 400 before the controller runs).  A
    route runs its controller; an error handed to [next] reaches
    [errorMiddleware], the last middleware of the application.  The errors
    of the services carry no [statusCode]. *)
Definition handle {A : Type} (controller : Async (ApiSuccessResponse.t A))
    : Users -> HttpReply A * Users :=
  fun db =>
    match controller db with
    | (inr response, db') => (Success response, db')
    | (inl error, db') => (errorMiddleware (AppError.mk error None), db')
    end.

(** A route with [authenticate] in front of its controller. *)
Definition authenticated {A : Type} (now : Z) (req : AuthenticatedRequest.t)
    (controller : AuthenticatedRequest.t -> Async (ApiSuccessResponse.t A))
    : Users -> HttpReply A * Users :=
  fun db =>
    match authenticate env now req with
    | Respond status message => (Refused status message, db)
    | Next req' => handle (controller req') db
    | NextError error => (errorMiddleware (AppError.mk error None), db)
    end.

Definition route_login (now : Z) (body : LoginInput.t) :=
  handle (loginController now body).

Definition route_register (_id salt : string) (body : RegisterInput.t) :=
  handle (registerController _id salt body).

Definition route_refresh (now : Z) (body : RefreshTokenInput.t) :=
  handle (refreshTokenController now body).

Definition route_logout (now : Z) (req : AuthenticatedRequest.t) :=
  authenticated now req logoutController.

Definition route_me (now : Z) (req : AuthenticatedRequest.t) :=
  authenticated now req getCurrentUserController.

(** ** hr.routes.ts: the two middlewares in front of every admin HR route *)
Definition adminHr_guard (now : Z) (req : AuthenticatedRequest.t) : Outcome :=
  match authenticate env now req with
  | Next req' => requireRole_untyped [RoleArray [SUPER_ADMIN]] req'
  | outcome => outcome
  end.

End Application.

(** ** The executable libraries, continued *)
Module ModelApp.

#[global] Program Instance hashing : BcryptHash :=
  {| bcrypt_hash plaintext _ _ := Model.hash plaintext |}.
Next Obligation. intros. simpl. by apply bool_decide_eq_true_2. Qed.

#[global] Instance mongoose : MongooseErrors :=
  {| ValidationError_message _ _ := "User validation failed";
     DuplicateKey_message _ := "E11000 duplicate key error" |}.

End ModelApp.

(** ** More sample data *)
Module SampleApp.

Definition carol_input : RegisterInput.t :=
  RegisterInput.mk "carol@example.com" "Str0ng!pass" None.

(** An active HR account with a live session since clock 100. *)
Definition hr_token : string := generateRefreshToken Sample.env 100 "d4ve".

Definition dave : IUserDocument.t :=
  IUserDocument.mk "dave@example.com" (Model.hash "Hr!pass123") HR true
    (Some hr_token).

Definition db : Users := <["d4ve" := dave]> Sample.db.

Definition zero_bytes : list Byte.byte := replicate 16 Byte.x00.

End SampleApp.

(** * Properties *)

(** ** Strings and the bearer header *)

Lemma substring_all (s : string) :
  String.substring 0 (String.length s) s = s.
Proof. induction s as [|c s IH]; simpl; [done|]. by rewrite IH. Qed.

Lemma startsWith_Bearer (token : string) :
  startsWith ("Bearer " +:+ token) "Bearer " = true.
Proof. unfold startsWith. simpl. by destruct token. Qed.

Lemma substring_from_Bearer (token : string) :
  substring_from 7 ("Bearer " +:+ token) = token.
Proof.
  unfold substring_from. simpl.
  rewrite Nat.sub_0_r. apply substring_all.
Qed.

Lemma lifetimes :
  ms TOKEN_EXPIRATION.ACCESS_TOKEN = Some (900 * 1000) /\
  ms TOKEN_EXPIRATION.REFRESH_TOKEN = Some (7 * 24 * 3600 * 1000).
Proof. split; reflexivity. Qed.

(** ** The store *)

Section Store.
Implicit Types (db : Users) (u : IUserDocument.t) (id e : string).

(** Under the unique index on [email], looking an address up finds the
    account stored with it. *)
Lemma User_findOne_email_stored db id u :
  unique_email_index db ->
  db !! id = Some u ->
  User_findOne_email (IUserDocument.email u) db = (inr (Some (id, u)), db).
Proof.
  intros Hindex Hid.
  assert (Huniq : forall id' u', db !! id' = Some u' ->
            IUserDocument.email u' = IUserDocument.email u -> id' = id).
  { intros id' u' Hid' He. exact (Hindex id' u' Hid' id u Hid He). }
  unfold User_findOne_email. do 2 f_equal.
  destruct (list_find _ _) as [[i [id' u']]|] eqn:Hfind; simpl.
  - apply list_find_Some in Hfind as (Hi & He & _). simpl in He.
    apply list_elem_of_lookup_2, elem_of_map_to_list in Hi.
    assert (id' = id) as -> by eauto.
    congruence.
  - apply list_find_None in Hfind.
    rewrite Forall_forall in Hfind.
    destruct (Hfind (id, u)); [|done].
    by apply elem_of_map_to_list.
Qed.

Lemma User_findOne_email_absent db e :
  no_account_with_email e db ->
  User_findOne_email e db = (inr None, db).
Proof.
  intros Hno. unfold User_findOne_email. do 2 f_equal.
  destruct (list_find _ _) as [[i [id u]]|] eqn:Hfind; [|done].
  apply list_find_Some in Hfind as (Hi & He & _). simpl in He.
  apply list_elem_of_lookup_2, elem_of_map_to_list in Hi.
  by destruct (Hno id u).
Qed.

(** What [User.findOne({ email })] returns is a stored document with that
    address. *)
Lemma User_findOne_email_found db e id u :
  User_findOne_email e db = (inr (Some (id, u)), db) ->
  db !! id = Some u /\ IUserDocument.email u = e.
Proof.
  unfold User_findOne_email. intros [= Hfind].
  destruct (list_find _ _) as [[i [id' u']]|] eqn:Hl; simplify_eq/=.
  apply list_find_Some in Hl as (Hi & He & _).
  by apply list_elem_of_lookup_2, elem_of_map_to_list in Hi.
Qed.

End Store.

Section Properties.
Context (env : Env) {jwt : Jsonwebtoken} {bcrypt : Bcrypt}.
Implicit Types (db : Users) (u : IUserDocument.t) (now t : Z).
Implicit Types (req : AuthenticatedRequest.t) (token : string).

(** ** Tokens *)

Lemma verify_access_token now t (p : JWTPayload.t) (secret : string) :
  jwt_verify (generateAccessToken env t p) secret now =
    if decide (secret = JWT_SECRET env)
    then if decide (t + 900 <= now)
         then inl (TokenExpiredError "jwt expired" (t + 900))
         else inr (Decoded.mk p t (t + 900))
    else inl (JsonWebTokenError "invalid signature").
Proof.
  unfold generateAccessToken.
  by rewrite (jwt_verify_sign _ _ _ _ _ _ _ (proj1 lifetimes)).
Qed.

Lemma verify_refresh_token now t (userId secret : string) :
  jwt_verify (generateRefreshToken env t userId) secret now =
    if decide (secret = JWT_REFRESH_SECRET env)
    then if decide (t + 604800 <= now)
         then inl (TokenExpiredError "jwt expired" (t + 604800))
         else inr (Decoded.mk (JWTPayload.mk userId None None) t (t + 604800))
    else inl (JsonWebTokenError "invalid signature").
Proof.
  unfold generateRefreshToken.
  by rewrite (jwt_verify_sign _ _ _ _ _ _ _ (proj2 lifetimes)).
Qed.

(** ** The request authenticator *)

Lemma authenticate_body_bearer now token (user : option Decoded.t) :
  let req := AuthenticatedRequest.mk (Some ("Bearer " +:+ token)) user in
  authenticate_body env now req =
    match jwt_verify token (JWT_SECRET env) now with
    | inl e => inl (Jwt e)
    | inr decoded =>
        inr (Next (AuthenticatedRequest.mk (Some ("Bearer " +:+ token))
                     (Some decoded)))
    end.
Proof.
  intros req. unfold authenticate_body. cbn [AuthenticatedRequest.authorization req].
  rewrite startsWith_Bearer, substring_from_Bearer.
  by rewrite bool_decide_eq_false_2.
Qed.

(** Whatever [jwt.verify] throws, the first [instanceof] test of the
    [catch] block succeeds: the branch answering [TOKEN_EXPIRED] and the
    call [next(error)] are never reached. *)
Lemma authenticate_verify_throws now token (user : option Decoded.t)
    (e : JwtError) :
  jwt_verify token (JWT_SECRET env) now = inl e ->
  authenticate env now
    (AuthenticatedRequest.mk (Some ("Bearer " +:+ token)) user) =
  Respond 401 AUTH_ERRORS.TOKEN_INVALID.
Proof.
  intros Hv. unfold authenticate.
  by rewrite authenticate_body_bearer, Hv.
Qed.

Lemma authenticate_verify_returns now token (user : option Decoded.t)
    (decoded : Decoded.t) :
  jwt_verify token (JWT_SECRET env) now = inr decoded ->
  authenticate env now
    (AuthenticatedRequest.mk (Some ("Bearer " +:+ token)) user) =
  Next (AuthenticatedRequest.mk (Some ("Bearer " +:+ token)) (Some decoded)).
Proof.
  intros Hv. unfold authenticate.
  by rewrite authenticate_body_bearer, Hv.
Qed.

(** ** The session manager, case by case *)

Lemma refreshAccessToken_cases now token db :
  refreshAccessToken env now (RefreshTokenInput.mk token) db =
    match jwt_verify token (JWT_REFRESH_SECRET env) now with
    | inl _ => (inl (Error AUTH_ERRORS.REFRESH_TOKEN_INVALID), db)
    | inr decoded =>
        let _id := JWTPayload.userId (Decoded.payload decoded) in
        match db !! _id with
        | None => (inl (Error AUTH_ERRORS.USER_INACTIVE), db)
        | Some u =>
            if IUserDocument.isActive u
            then if decide (IUserDocument.refreshToken u = Some token)
                 then (inr (generateAccessToken env now
                              (JWTPayload.mk _id
                                 (Some (IUserDocument.email u))
                                 (Some (IUserDocument.role u)))), db)
                 else (inl (Error AUTH_ERRORS.REFRESH_TOKEN_INVALID), db)
            else (inl (Error AUTH_ERRORS.USER_INACTIVE), db)
        end
    end.
Proof.
  unfold refreshAccessToken, try_catch, bind, lift_jwt, User_findById.
  cbn [RefreshTokenInput.refreshToken].
  destruct (jwt_verify _ _ _) as [e|decoded]; [done|]. simpl.
  destruct (db !! _) as [u|]; [|done].
  destruct (IUserDocument.isActive u); [|done]. simpl.
  by case_bool_decide; case_decide.
Qed.

Lemma loginUser_cases now (input : LoginInput.t) db :
  loginUser env now input db =
    match User_findOne_email (LoginInput.email input) db with
    | (inr (Some (_id, u)), _) =>
        if IUserDocument.isActive u
        then if comparePassword u (LoginInput.password input)
             then
               let refreshToken := generateRefreshToken env now _id in
               (inr (LoginResponse.mk
                       (generateAccessToken env now
                          (JWTPayload.mk _id (Some (IUserDocument.email u))
                                         (Some (IUserDocument.role u))))
                       refreshToken
                       (PublicUser.mk _id (IUserDocument.email u)
                                      (IUserDocument.role u))),
                <[_id := IUserDocument.set_refreshToken (Some refreshToken) u]> db)
             else (inl (Error AUTH_ERRORS.INVALID_CREDENTIALS), db)
        else (inl (Error AUTH_ERRORS.USER_INACTIVE), db)
    | _ => (inl (Error AUTH_ERRORS.INVALID_CREDENTIALS), db)
    end.
Proof.
  unfold loginUser, bind, User_findOne_email, User_save, ret, throw.
  destruct (list_find _ _) as [[i [id u]]|]; simpl; [|done].
  destruct (IUserDocument.isActive u); simpl; [|done].
  by destruct (comparePassword _ _).
Qed.

Lemma logoutUser_lookup (userId id : string) db :
  snd (logoutUser userId db) !! id =
    if decide (userId = id)
    then IUserDocument.set_refreshToken None <$> db !! id
    else db !! id.
Proof.
  unfold logoutUser, User_findByIdAndUpdate_unset_refreshToken. simpl.
  case_decide as Hid; [subst; apply lookup_alter_eq|by apply lookup_alter_ne].
Qed.

(** An access token presented from its expiry on is answered with
    [TOKEN_INVALID], like any other token [jwt.verify] rejects. *)
Lemma authenticate_expired_access_token now t (p : JWTPayload.t)
    (user : option Decoded.t) :
  t + 900 <= now ->
  authenticate env now
    (AuthenticatedRequest.mk
       (Some ("Bearer " +:+ generateAccessToken env t p)) user) =
  Respond 401 AUTH_ERRORS.TOKEN_INVALID.
Proof.
  intros Hexp. eapply authenticate_verify_throws.
  rewrite verify_access_token, decide_True, decide_True; done.
Qed.

(** A token that does not verify under the refresh secret is refused as
    [REFRESH_TOKEN_INVALID], whatever the store holds. *)
Lemma refresh_unverified now token db (e : JwtError) :
  jwt_verify token (JWT_REFRESH_SECRET env) now = inl e ->
  refreshAccessToken env now (RefreshTokenInput.mk token) db =
    (inl (Error AUTH_ERRORS.REFRESH_TOKEN_INVALID), db).
Proof. intros Hv. by rewrite refreshAccessToken_cases, Hv. Qed.

(** ** Claims *)

(** C2 (as amended).  An account holds at most one refresh fingerprint (the
    [refreshToken] field is a single optional string).  For every refresh
    request whose token verifies under the refresh secret and names an
    ACTIVE account, if the token differs from the account's stored
    fingerprint then Refresh fails with [REFRESH_TOKEN_INVALID] and leaves
    the store alone; in particular, once Logout has cleared the fingerprint
    of that account, the same request fails with [REFRESH_TOKEN_INVALID]
    whatever the fingerprint was before. *)
Theorem C2_refresh_rejects_token_other_than_fingerprint
    now token db (decoded : Decoded.t) u :
  let userId := JWTPayload.userId (Decoded.payload decoded) in
  jwt_verify token (JWT_REFRESH_SECRET env) now = inr decoded ->
  db !! userId = Some u ->
  IUserDocument.isActive u = true ->
  (IUserDocument.refreshToken u <> Some token ->
   refreshAccessToken env now (RefreshTokenInput.mk token) db =
     (inl (Error AUTH_ERRORS.REFRESH_TOKEN_INVALID), db)) /\
  (let db' := snd (logoutUser userId db) in
   refreshAccessToken env now (RefreshTokenInput.mk token) db' =
     (inl (Error AUTH_ERRORS.REFRESH_TOKEN_INVALID), db')).
Proof.
  intros userId Hv Hu Hactive. split.
  - intros Hne. rewrite refreshAccessToken_cases, Hv. simpl.
    fold userId. rewrite Hu, Hactive. by rewrite decide_False.
  - intros db'. rewrite refreshAccessToken_cases, Hv. simpl. fold userId.
    unfold db'. rewrite logoutUser_lookup, decide_True, Hu by done. simpl.
    by rewrite Hactive.
Qed.

(** A refresh token superseded by a later login of the same account is
    refused, at any time, as soon as the two tokens differ. *)
Lemma refresh_superseded t1 t2 now (input1 input2 : LoginInput.t) db db1 db2
    (r1 r2 : LoginResponse.t) :
  loginUser env t1 input1 db = (inr r1, db1) ->
  loginUser env t2 input2 db1 = (inr r2, db2) ->
  PublicUser.id (LoginResponse.user r1) = PublicUser.id (LoginResponse.user r2) ->
  LoginResponse.refreshToken r1 <> LoginResponse.refreshToken r2 ->
  refreshAccessToken env now
    (RefreshTokenInput.mk (LoginResponse.refreshToken r1)) db2 =
  (inl (Error AUTH_ERRORS.REFRESH_TOKEN_INVALID), db2).
Proof.
  rewrite !loginUser_cases. unfold User_findOne_email.
  destruct (list_find _ (map_to_list db)) as [[i1 [id1 u1]]|]; simpl; [|done].
  destruct (IUserDocument.isActive u1); [|done].
  destruct (comparePassword u1 _); [|done].
  intros [= <- <-].
  destruct (list_find _ _) as [[i2 [id2 u2]]|]; simpl; [|done].
  destruct (IUserDocument.isActive u2) eqn:Hactive; [|done].
  destruct (comparePassword u2 _); [|done].
  intros [= <- <-]. simpl. intros <- Hne.
  rewrite refreshAccessToken_cases, verify_refresh_token.
  rewrite decide_True by done. case_decide; [done|]. simpl.
  rewrite lookup_insert_eq. simpl. rewrite Hactive.
  rewrite decide_False; [done|]. congruence.
Qed.

(** C3.  In a store that respects the unique index on [email], for every
    stored active account and every (email, password) pair matching it (the
    email is the account's, bcrypt accepts the password against the stored
    digest), Login succeeds; the access token verifies, at any time before
    its expiry, to exactly the account's id, email and role; the new refresh
    token replaces whatever fingerprint the account record held, the rest of
    the store staying as it was; and the returned view of the account
    consists of id, email and role only. *)
Theorem C3_login_succeeds now (input : LoginInput.t) db (_id : string) u :
  unique_email_index db ->
  db !! _id = Some u ->
  IUserDocument.email u = LoginInput.email input ->
  IUserDocument.isActive u = true ->
  comparePassword u (LoginInput.password input) = true ->
  exists (accessToken refreshToken : string) (db' : Users),
    loginUser env now input db =
      (inr (LoginResponse.mk accessToken refreshToken
              (PublicUser.mk _id (IUserDocument.email u)
                             (IUserDocument.role u))), db') /\
    (forall now', now' < now + 900 ->
       jwt_verify accessToken (JWT_SECRET env) now' =
         inr (Decoded.mk
                (JWTPayload.mk _id (Some (IUserDocument.email u))
                               (Some (IUserDocument.role u)))
                now (now + 900))) /\
    refreshToken = generateRefreshToken env now _id /\
    db' !! _id =
      Some (IUserDocument.mk (IUserDocument.email u) (IUserDocument.password u)
              (IUserDocument.role u) (IUserDocument.isActive u)
              (Some refreshToken)) /\
    (forall id, id <> _id -> db' !! id = db !! id).
Proof.
  intros Hindex Hu He Hactive Hpw.
  pose proof (User_findOne_email_stored db _id u Hindex Hu) as Hfind.
  rewrite He in Hfind.
  eexists _, _, _. split_and!.
  - rewrite loginUser_cases, Hfind, Hactive, Hpw. simpl. reflexivity.
  - intros now' Hnow'. rewrite verify_access_token.
    rewrite decide_True by done. by rewrite decide_False by lia.
  - reflexivity.
  - by rewrite lookup_insert_eq.
  - intros id Hid. by rewrite lookup_insert_ne.
Qed.

(** C4 (as amended).  In a store that respects the unique index on
    [email], for every stored ACTIVE account and every incorrect password for
    it, Login rejects with exactly the exception it rejects with for an
    address no account is stored under: a plain [Error] carrying
    [INVALID_CREDENTIALS].  Neither attempt changes the store. *)
Theorem C4_login_failures_indistinguishable
    now (input input' : LoginInput.t) db (_id : string) u :
  unique_email_index db ->
  db !! _id = Some u ->
  IUserDocument.email u = LoginInput.email input ->
  IUserDocument.isActive u = true ->
  comparePassword u (LoginInput.password input) = false ->
  no_account_with_email (LoginInput.email input') db ->
  loginUser env now input db =
    (inl (Error AUTH_ERRORS.INVALID_CREDENTIALS), db) /\
  loginUser env now input' db =
    (inl (Error AUTH_ERRORS.INVALID_CREDENTIALS), db).
Proof.
  intros Hindex Hu He Hactive Hpw Hnone.
  pose proof (User_findOne_email_stored db _id u Hindex Hu) as Hfind.
  rewrite He in Hfind.
  split; rewrite loginUser_cases.
  - by rewrite Hfind, Hactive, Hpw.
  - by rewrite (User_findOne_email_absent _ _ Hnone).
Qed.

(** C6.  For every claims value (userId, email, role), the access token
    issued for it at time [t] and presented in a bearer header at time [now]
    makes the authenticator's verification step return exactly those claims
    (with [iat = t] and [exp = t + 900] added) when [now] is before the
    expiry, and throw [TokenExpiredError] from the expiry on. *)
Theorem C6_access_token_round_trip
    t now (userId email : string) (role : UserRole) (user : option Decoded.t) :
  let claims := JWTPayload.mk userId (Some email) (Some role) in
  let header := "Bearer " +:+ generateAccessToken env t claims in
  authenticate_body env now (AuthenticatedRequest.mk (Some header) user) =
    if decide (t + 900 <= now)
    then inl (Jwt (TokenExpiredError "jwt expired" (t + 900)))
    else inr (Next (AuthenticatedRequest.mk (Some header)
                      (Some (Decoded.mk claims t (t + 900))))).
Proof.
  intros claims header. unfold header.
  rewrite authenticate_body_bearer, verify_access_token.
  rewrite decide_True by done. by case_decide.
Qed.

(** C7.  For every refresh request whose token verifies under the refresh
    secret (validly signed, not expired), if no account is stored under the
    id the token carries, or the account stored there has [isActive] false,
    Refresh fails with [USER_INACTIVE], whether or not the token equals the
    stored fingerprint. *)
Theorem C7_refresh_inactive_account now token db (decoded : Decoded.t) :
  let userId := JWTPayload.userId (Decoded.payload decoded) in
  jwt_verify token (JWT_REFRESH_SECRET env) now = inr decoded ->
  (db !! userId = None \/
   exists u, db !! userId = Some u /\ IUserDocument.isActive u = false) ->
  refreshAccessToken env now (RefreshTokenInput.mk token) db =
    (inl (Error AUTH_ERRORS.USER_INACTIVE), db).
Proof.
  intros userId Hv Hacc. rewrite refreshAccessToken_cases, Hv. simpl.
  fold userId. destruct Hacc as [->|(u & -> & ->)]; done.
Qed.

(** C9.  When the two secrets differ, an access token presented to refresh
    verification and a refresh token presented to access verification both
    fail with [JsonWebTokenError "invalid signature"], at any time (expired
    or not); Refresh turns this into [REFRESH_TOKEN_INVALID], the request
    authenticator answers 401 with [TOKEN_INVALID], and neither passes the
    error on uncaught. *)
Theorem C9_wrong_secret_invalid_signature
    now t (p : JWTPayload.t) (userId : string) db (user : option Decoded.t) :
  JWT_SECRET env <> JWT_REFRESH_SECRET env ->
  jwt_verify (generateAccessToken env t p) (JWT_REFRESH_SECRET env) now =
    inl (JsonWebTokenError "invalid signature") /\
  refreshAccessToken env now
    (RefreshTokenInput.mk (generateAccessToken env t p)) db =
    (inl (Error AUTH_ERRORS.REFRESH_TOKEN_INVALID), db) /\
  jwt_verify (generateRefreshToken env t userId) (JWT_SECRET env) now =
    inl (JsonWebTokenError "invalid signature") /\
  authenticate env now
    (AuthenticatedRequest.mk
       (Some ("Bearer " +:+ generateRefreshToken env t userId)) user) =
    Respond 401 AUTH_ERRORS.TOKEN_INVALID.
Proof.
  intros Hsecrets.
  assert (Ha : jwt_verify (generateAccessToken env t p)
                 (JWT_REFRESH_SECRET env) now =
               inl (JsonWebTokenError "invalid signature")).
  { rewrite verify_access_token. by rewrite decide_False. }
  assert (Hr : jwt_verify (generateRefreshToken env t userId)
                 (JWT_SECRET env) now =
               inl (JsonWebTokenError "invalid signature")).
  { rewrite verify_refresh_token. by rewrite decide_False. }
  split_and!; [done| |done|].
  - by eapply refresh_unverified.
  - by eapply authenticate_verify_throws.
Qed.

(** C10.  For every successful Refresh (the token verifies, the account it
    names is stored, active and holds the token as its fingerprint), the new
    access token is issued for the id together with the email and role of
    the account record as stored at refresh time; it verifies to exactly
    these, whatever email or role the presented token carried. *)
Theorem C10_refresh_claims_from_store now token db (decoded : Decoded.t) u :
  let userId := JWTPayload.userId (Decoded.payload decoded) in
  let current :=
    JWTPayload.mk userId (Some (IUserDocument.email u))
                  (Some (IUserDocument.role u)) in
  jwt_verify token (JWT_REFRESH_SECRET env) now = inr decoded ->
  db !! userId = Some u ->
  IUserDocument.isActive u = true ->
  IUserDocument.refreshToken u = Some token ->
  refreshAccessToken env now (RefreshTokenInput.mk token) db =
    (inr (generateAccessToken env now current), db) /\
  (forall now', now' < now + 900 ->
     jwt_verify (generateAccessToken env now current) (JWT_SECRET env) now' =
       inr (Decoded.mk current now (now + 900))).
Proof.
  intros userId current Hv Hu Hactive Hfp. split.
  - rewrite refreshAccessToken_cases, Hv. simpl. fold userId.
    rewrite Hu, Hactive. by rewrite decide_True.
  - intros now' Hnow'. rewrite verify_access_token.
    rewrite decide_True by done. by rewrite decide_False by lia.
Qed.

End Properties.

(** C5.  The role gate.  Without verified claims on the request it answers
    401 [UNAUTHORIZED] whatever the allow-list; with claims it lets the
    request through exactly when the claimed role is a member of the
    allow-list and answers 403 [FORBIDDEN] otherwise (also when the claims
    carry no role).  Membership is all that counts: the HR gate admits HR and
    SUPER_ADMIN and no other role. *)
Theorem C5_requireRole_gate :
  (forall (R : list UserRole) (h : option string),
     requireRole R (AuthenticatedRequest.mk h None) =
       Respond 401 AUTH_ERRORS.UNAUTHORIZED) /\
  (forall (R : list UserRole) (h : option string) (userId : string)
          (email : option string) (role : UserRole) (iat exp : Z),
     let req :=
       AuthenticatedRequest.mk h
         (Some (Decoded.mk (JWTPayload.mk userId email (Some role)) iat exp)) in
     requireRole R req =
       if decide (role ∈ R) then Next req
       else Respond 403 AUTH_ERRORS.FORBIDDEN) /\
  (forall (R : list UserRole) (h : option string) (userId : string)
          (email : option string) (iat exp : Z),
     requireRole R
       (AuthenticatedRequest.mk h
          (Some (Decoded.mk (JWTPayload.mk userId email None) iat exp))) =
       Respond 403 AUTH_ERRORS.FORBIDDEN) /\
  (forall (h : option string) (userId : string) (email : option string)
          (role : UserRole) (iat exp : Z),
     let req :=
       AuthenticatedRequest.mk h
         (Some (Decoded.mk (JWTPayload.mk userId email (Some role)) iat exp)) in
     requireHR req =
       match role with
       | HR | SUPER_ADMIN => Next req
       | MANAGER | EMPLOYEE => Respond 403 AUTH_ERRORS.FORBIDDEN
       end).
Proof.
  split_and!.
  - done.
  - intros R h userId email role iat exp req.
    unfold requireRole, req, includes. simpl.
    by case_bool_decide; case_decide.
  - done.
  - by intros h userId email [] iat exp.
Qed.

(** C8.  Logout never fails and clears the fingerprint of the account it is
    called for (and touches nothing else); a second Logout right after the
    first does not fail either and leaves the store as the first left it, so
    after either call the account has no refresh fingerprint. *)
Theorem C8_logout_idempotent (userId : string) (db : Users) :
  let first := logoutUser userId db in
  let second := logoutUser userId (snd first) in
  fst first = inr tt /\
  fst second = inr tt /\
  (forall id,
     snd first !! id =
       if decide (userId = id)
       then (fun u =>
               IUserDocument.mk (IUserDocument.email u)
                 (IUserDocument.password u) (IUserDocument.role u)
                 (IUserDocument.isActive u) None) <$> db !! id
       else db !! id) /\
  snd second = snd first.
Proof.
  intros first second. split_and!; [done|done| |].
  - intros id. unfold first. by rewrite logoutUser_lookup.
  - unfold second, first, logoutUser,
      User_findByIdAndUpdate_unset_refreshToken. simpl.
    rewrite alter_alter_eq. apply alter_ext. by intros [].
Qed.

(** ** The code on concrete requests *)

(** C1.  An access token issued to alice at clock 100 expires at clock 1000.
    Presented at clock 1000 it is correctly signed and [jwt.verify] throws
    [TokenExpiredError]; the authenticator nevertheless answers with
    [TOKEN_INVALID] ("Invalid token"), not with [TOKEN_EXPIRED]
    ("Token has expired"): the [instanceof jwt.JsonWebTokenError] test comes
    first in the [catch] block and holds for the derived class too. *)
Theorem C1_expired_token_answered_invalid_token :
  let token := generateAccessToken Sample.env 100 Sample.alice_claims in
  jwt_verify token (JWT_SECRET Sample.env) 1000 =
    inl (TokenExpiredError "jwt expired" 1000) /\
  authenticate Sample.env 1000 (Sample.bearer token) =
    Respond 401 "Invalid token" /\
  authenticate Sample.env 1000 (Sample.bearer token) <>
    Respond 401 AUTH_ERRORS.TOKEN_EXPIRED.
Proof. vm_compute. split_and!; [reflexivity..|discriminate]. Qed.

(** C2, as first stated, fails for an inactive account: bob is deactivated
    and still holds the token of his login at clock 50; a validly signed,
    unexpired refresh token of his that differs from the stored one is
    refused with [USER_INACTIVE], not [REFRESH_TOKEN_INVALID]. *)
Lemma C2_counterexample_inactive_account :
  let presented := generateRefreshToken Sample.env 60 "b0b" in
  let outcome :=
    fst (refreshAccessToken Sample.env 100
           (RefreshTokenInput.mk presented) Sample.db) in
  Sample.db !! "b0b" = Some Sample.bob /\
  IUserDocument.refreshToken Sample.bob <> Some presented /\
  jwt_verify presented (JWT_REFRESH_SECRET Sample.env) 100 =
    inr (Decoded.mk (JWTPayload.mk "b0b" None None) 60 604860) /\
  outcome = inl (Error AUTH_ERRORS.USER_INACTIVE) /\
  outcome <> inl (Error AUTH_ERRORS.REFRESH_TOKEN_INVALID).
Proof.
  vm_compute. split_and!; [reflexivity|discriminate|reflexivity..|discriminate].
Qed.

Lemma C2_witness :
  let token := generateRefreshToken Sample.env 60 "a11ce" in
  let decoded := Decoded.mk (JWTPayload.mk "a11ce" None None) 60 604860 in
  let db' := snd (logoutUser "a11ce" Sample.db) in
  jwt_verify token (JWT_REFRESH_SECRET Sample.env) 100 = inr decoded /\
  Sample.db !! "a11ce" = Some Sample.alice /\
  IUserDocument.isActive Sample.alice = true /\
  IUserDocument.refreshToken Sample.alice <> Some token /\
  refreshAccessToken Sample.env 100 (RefreshTokenInput.mk token) Sample.db =
    (inl (Error AUTH_ERRORS.REFRESH_TOKEN_INVALID), Sample.db) /\
  refreshAccessToken Sample.env 100 (RefreshTokenInput.mk token) db' =
    (inl (Error AUTH_ERRORS.REFRESH_TOKEN_INVALID), db').
Proof.
  intros token decoded db'.
  assert (Hv : jwt_verify token (JWT_REFRESH_SECRET Sample.env) 100 =
               inr decoded) by (vm_compute; reflexivity).
  assert (Hu : Sample.db !! "a11ce" = Some Sample.alice)
    by (vm_compute; reflexivity).
  assert (Hne : IUserDocument.refreshToken Sample.alice <> Some token)
    by discriminate.
  destruct (C2_refresh_rejects_token_other_than_fingerprint
              Sample.env 100 token Sample.db decoded Sample.alice
              Hv Hu eq_refl) as [Hmismatch Hlogout].
  split_and!; [exact Hv|exact Hu|reflexivity|exact Hne|
               exact (Hmismatch Hne)|exact Hlogout].
Defined.

Lemma C3_witness :
  let input := LoginInput.mk "alice@example.com" "Str0ng!pass" in
  unique_email_index Sample.db /\
  Sample.db !! "a11ce" = Some Sample.alice /\
  comparePassword Sample.alice "Str0ng!pass" = true /\
  exists (accessToken refreshToken : string) (db' : Users),
    loginUser Sample.env 100 input Sample.db =
      (inr (LoginResponse.mk accessToken refreshToken
              (PublicUser.mk "a11ce" "alice@example.com" HR)), db') /\
    (forall now', now' < 100 + 900 ->
       jwt_verify accessToken (JWT_SECRET Sample.env) now' =
         inr (Decoded.mk Sample.alice_claims 100 (100 + 900))) /\
    refreshToken = generateRefreshToken Sample.env 100 "a11ce" /\
    db' !! "a11ce" =
      Some (IUserDocument.mk "alice@example.com" (Model.hash "Str0ng!pass")
              HR true (Some refreshToken)) /\
    (forall id, id <> "a11ce" -> db' !! id = Sample.db !! id).
Proof.
  intros input.
  assert (Hindex : unique_email_index Sample.db)
    by compute_done.
  assert (Hu : Sample.db !! "a11ce" = Some Sample.alice)
    by (vm_compute; reflexivity).
  assert (Hpw : comparePassword Sample.alice "Str0ng!pass" = true)
    by (vm_compute; reflexivity).
  split_and!; [exact Hindex|exact Hu|exact Hpw|].
  exact (C3_login_succeeds Sample.env 100 input Sample.db "a11ce"
           Sample.alice Hindex Hu eq_refl eq_refl Hpw).
Defined.

(** C4, as first stated, fails for an inactive account: a wrong password
    for bob's address is answered with [USER_INACTIVE], an address nobody
    has with [INVALID_CREDENTIALS]. *)
Lemma C4_counterexample_inactive_account :
  let wrong := LoginInput.mk "bob@example.com" "wrong-password" in
  let nobody := LoginInput.mk "nobody@example.com" "wrong-password" in
  unique_email_index Sample.db /\
  Sample.db !! "b0b" = Some Sample.bob /\
  comparePassword Sample.bob "wrong-password" = false /\
  no_account_with_email "nobody@example.com" Sample.db /\
  fst (loginUser Sample.env 100 wrong Sample.db) =
    inl (Error AUTH_ERRORS.USER_INACTIVE) /\
  fst (loginUser Sample.env 100 nobody Sample.db) =
    inl (Error AUTH_ERRORS.INVALID_CREDENTIALS) /\
  fst (loginUser Sample.env 100 wrong Sample.db) <>
    fst (loginUser Sample.env 100 nobody Sample.db).
Proof.
  intros wrong nobody. split_and!.
  - compute_done.
  - vm_compute; reflexivity.
  - vm_compute; reflexivity.
  - compute_done.
  - vm_compute; reflexivity.
  - vm_compute; reflexivity.
  - vm_compute; discriminate.
Qed.

Lemma C4_witness :
  let wrong := LoginInput.mk "alice@example.com" "wrong-password" in
  let nobody := LoginInput.mk "nobody@example.com" "wrong-password" in
  unique_email_index Sample.db /\
  Sample.db !! "a11ce" = Some Sample.alice /\
  comparePassword Sample.alice "wrong-password" = false /\
  no_account_with_email "nobody@example.com" Sample.db /\
  loginUser Sample.env 100 wrong Sample.db =
    (inl (Error AUTH_ERRORS.INVALID_CREDENTIALS), Sample.db) /\
  loginUser Sample.env 100 nobody Sample.db =
    (inl (Error AUTH_ERRORS.INVALID_CREDENTIALS), Sample.db).
Proof.
  intros wrong nobody.
  assert (Hindex : unique_email_index Sample.db)
    by compute_done.
  assert (Hu : Sample.db !! "a11ce" = Some Sample.alice)
    by (vm_compute; reflexivity).
  assert (Hpw : comparePassword Sample.alice "wrong-password" = false)
    by (vm_compute; reflexivity).
  assert (Hnone : no_account_with_email "nobody@example.com" Sample.db)
    by compute_done.
  split_and!; [exact Hindex|exact Hu|exact Hpw|exact Hnone|..];
    apply (C4_login_failures_indistinguishable Sample.env 100 wrong nobody
             Sample.db "a11ce" Sample.alice Hindex Hu eq_refl eq_refl Hpw
             Hnone).
Defined.

Lemma C7_witness :
  let decoded := Decoded.mk (JWTPayload.mk "b0b" None None) 50 604850 in
  jwt_verify Sample.bob_old_token (JWT_REFRESH_SECRET Sample.env) 100 =
    inr decoded /\
  Sample.db !! "b0b" = Some Sample.bob /\
  IUserDocument.isActive Sample.bob = false /\
  IUserDocument.refreshToken Sample.bob = Some Sample.bob_old_token /\
  refreshAccessToken Sample.env 100
    (RefreshTokenInput.mk Sample.bob_old_token) Sample.db =
    (inl (Error AUTH_ERRORS.USER_INACTIVE), Sample.db).
Proof.
  intros decoded.
  assert (Hv : jwt_verify Sample.bob_old_token
                 (JWT_REFRESH_SECRET Sample.env) 100 = inr decoded)
    by (vm_compute; reflexivity).
  assert (Hu : Sample.db !! "b0b" = Some Sample.bob)
    by (vm_compute; reflexivity).
  split_and!; [exact Hv|exact Hu|reflexivity|reflexivity|].
  apply (C7_refresh_inactive_account Sample.env 100 Sample.bob_old_token
           Sample.db decoded Hv).
  right. exists Sample.bob. split; [exact Hu|reflexivity].
Defined.

Lemma C9_witness :
  let access := generateAccessToken Sample.env 100 Sample.alice_claims in
  let refresh := generateRefreshToken Sample.env 100 "a11ce" in
  JWT_SECRET Sample.env <> JWT_REFRESH_SECRET Sample.env /\
  jwt_verify access (JWT_REFRESH_SECRET Sample.env) 200 =
    inl (JsonWebTokenError "invalid signature") /\
  refreshAccessToken Sample.env 200 (RefreshTokenInput.mk access) Sample.db =
    (inl (Error AUTH_ERRORS.REFRESH_TOKEN_INVALID), Sample.db) /\
  jwt_verify refresh (JWT_SECRET Sample.env) 200 =
    inl (JsonWebTokenError "invalid signature") /\
  authenticate Sample.env 200 (Sample.bearer refresh) =
    Respond 401 AUTH_ERRORS.TOKEN_INVALID.
Proof.
  intros access refresh.
  assert (Hsecrets : JWT_SECRET Sample.env <> JWT_REFRESH_SECRET Sample.env)
    by discriminate.
  split; [exact Hsecrets|].
  exact (C9_wrong_secret_invalid_signature Sample.env 200 100
           Sample.alice_claims "a11ce" Sample.db None Hsecrets).
Defined.

(** Alice logged in at clock 100 as HR and was made MANAGER afterwards; the
    access token Refresh issues at clock 500 says MANAGER. *)
Lemma C10_witness :
  let token := generateRefreshToken Sample.env 100 "a11ce" in
  let decoded := Decoded.mk (JWTPayload.mk "a11ce" None None) 100 604900 in
  let promoted :=
    IUserDocument.mk "alice@example.com" (Model.hash "Str0ng!pass") MANAGER
      true (Some token) in
  let db := <["a11ce" := promoted]> Sample.db in
  let current :=
    JWTPayload.mk "a11ce" (Some "alice@example.com") (Some MANAGER) in
  jwt_verify token (JWT_REFRESH_SECRET Sample.env) 500 = inr decoded /\
  db !! "a11ce" = Some promoted /\
  refreshAccessToken Sample.env 500 (RefreshTokenInput.mk token) db =
    (inr (generateAccessToken Sample.env 500 current), db) /\
  (forall now', now' < 500 + 900 ->
     jwt_verify (generateAccessToken Sample.env 500 current)
       (JWT_SECRET Sample.env) now' =
       inr (Decoded.mk current 500 (500 + 900))).
Proof.
  intros token decoded promoted db current.
  assert (Hv : jwt_verify token (JWT_REFRESH_SECRET Sample.env) 500 =
               inr decoded) by (vm_compute; reflexivity).
  assert (Hu : db !! "a11ce" = Some promoted) by (vm_compute; reflexivity).
  split_and!; [exact Hv|exact Hu|..];
    apply (C10_refresh_claims_from_store Sample.env 500 token db decoded
             promoted Hv Hu eq_refl eq_refl).
Defined.

(** * Properties of the code around the claims *)

(** ** The role gates *)

Section Gates.
Implicit Types (req : AuthenticatedRequest.t) (R : list UserRole).

Lemma requireRole_Next R req :
  requireRole R req = Next req <->
  exists user r,
    AuthenticatedRequest.user req = Some user /\
    JWTPayload.role (Decoded.payload user) = Some r /\ r ∈ R.
Proof.
  unfold requireRole, includes.
  destruct (AuthenticatedRequest.user req) as [user|].
  - destruct (JWTPayload.role (Decoded.payload user)) as [r|] eqn:Hr; simpl.
    + case_bool_decide as Hin; simpl.
      * split; [|done]. intros _. by exists user, r.
      * split; [done|]. intros (user' & r' & [= <-] & Hr' & Hin').
        rewrite Hr in Hr'. by simplify_eq.
    + split; [done|]. intros (user' & r' & [= <-] & Hr' & _).
      by rewrite Hr in Hr'.
  - split; [done|]. by intros (user & r & [=] & _).
Qed.

(** X3.  Enlarging the allow-list never turns an admitted request away. *)
Theorem requireRole_monotone R R' req :
  R ⊆ R' ->
  requireRole R req = Next req ->
  requireRole R' req = Next req.
Proof.
  intros Hsub (user & r & Hu & Hr & Hin)%requireRole_Next.
  apply requireRole_Next. exists user, r. split_and!; [done..|].
  by apply Hsub.
Qed.

(** X4.  The four ready-made gates are nested: whoever passes
    [requireSuperAdmin] passes [requireHR], whoever passes [requireHR]
    passes [requireManager], and whoever passes that passes
    [requireEmployee], which admits every request whose claims carry a
    role; a gate with an empty allow-list admits nobody. *)
Theorem convenience_gates_nested req :
  (requireSuperAdmin req = Next req -> requireHR req = Next req) /\
  (requireHR req = Next req -> requireManager req = Next req) /\
  (requireManager req = Next req -> requireEmployee req = Next req) /\
  (requireEmployee req = Next req <->
   exists user r, AuthenticatedRequest.user req = Some user /\
                  JWTPayload.role (Decoded.payload user) = Some r) /\
  requireRole [] req <> Next req.
Proof.
  assert (Hstep : forall R R', R ⊆ R' ->
            requireRole R req = Next req -> requireRole R' req = Next req).
  { intros R R' Hsub (user & r & Hu & Hr & Hin)%requireRole_Next.
    apply requireRole_Next. exists user, r. auto. }
  split_and!.
  - apply Hstep. compute_done.
  - apply Hstep. compute_done.
  - apply Hstep. compute_done.
  - unfold requireEmployee. rewrite requireRole_Next. split.
    + intros (user & r & ? & ? & _). eauto.
    + intros (user & r & ? & ?). exists user, r. split_and!; [done..|].
      destruct r; compute_done.
  - intros (user & r & _ & _ & Hin)%requireRole_Next.
    by apply elem_of_nil in Hin.
Qed.

(** On role strings the untyped gate is the typed one. *)
Lemma requireRole_untyped_on_roles R req :
  requireRole_untyped (RoleString <$> R) req = requireRole R req.
Proof.
  unfold requireRole_untyped, requireRole, includes_untyped, includes.
  destruct (AuthenticatedRequest.user req) as [user|]; [|done].
  destruct (JWTPayload.role (Decoded.payload user)) as [r|]; [|done].
  assert (RoleString r ∈ RoleString <$> R <-> r ∈ R) as Hiff.
  { rewrite list_elem_of_fmap. split; [|by eauto].
    by intros (r' & [= ->] & ?). }
  by rewrite (bool_decide_ext _ _ Hiff).
Qed.

(** An argument that is an array of roles admits no role. *)
Lemma requireRole_untyped_array (rs : list UserRole) req :
  requireRole_untyped [RoleArray rs] req =
    match AuthenticatedRequest.user req with
    | None => Respond 401 AUTH_ERRORS.UNAUTHORIZED
    | Some _ => Respond 403 AUTH_ERRORS.FORBIDDEN
    end.
Proof.
  unfold requireRole_untyped, includes_untyped.
  destruct (AuthenticatedRequest.user req) as [user|]; [|done].
  destruct (JWTPayload.role (Decoded.payload user)) as [r|]; [|done].
  rewrite bool_decide_eq_false_2; [done|].
  by intros [=]%list_elem_of_singleton.
Qed.

End Gates.

Section ApplicationProperties.
Context (env : Env) {jwt : Jsonwebtoken} {bcrypt : Bcrypt}
        {hashing : BcryptHash} {mongoose : MongooseErrors}.
Implicit Types (db : Users) (u : IUserDocument.t) (now t : Z).
Implicit Types (req : AuthenticatedRequest.t) (token : string).

(** ** The request authenticator *)

Lemma authenticate_cases now req :
  authenticate env now req =
    match AuthenticatedRequest.authorization req with
    | None => Respond 401 AUTH_ERRORS.UNAUTHORIZED
    | Some authHeader =>
        if startsWith authHeader "Bearer "
        then match jwt_verify (substring_from 7 authHeader)
                     (JWT_SECRET env) now with
             | inl _ => Respond 401 AUTH_ERRORS.TOKEN_INVALID
             | inr decoded =>
                 Next (AuthenticatedRequest.mk (Some authHeader)
                         (Some decoded))
             end
        else Respond 401 AUTH_ERRORS.UNAUTHORIZED
    end.
Proof.
  unfold authenticate, authenticate_body.
  destruct (AuthenticatedRequest.authorization req) as [authHeader|] eqn:Hh;
    [|done].
  case_bool_decide as Hempty; simpl; [by subst authHeader|].
  destruct (startsWith authHeader "Bearer "); simpl; [|done].
  by destruct (jwt_verify _ _ _).
Qed.


(** X2.  The answer is [UNAUTHORIZED] exactly when the Authorization header
    is missing or does not begin with "Bearer " (the scheme is matched
    case-sensitively and needs the space); the token is then not looked
    at. *)
Theorem authenticate_unauthorized_iff now req :
  authenticate env now req = Respond 401 AUTH_ERRORS.UNAUTHORIZED <->
  match AuthenticatedRequest.authorization req with
  | None => True
  | Some authHeader => startsWith authHeader "Bearer " = false
  end.
Proof.
  rewrite authenticate_cases.
  destruct (AuthenticatedRequest.authorization req) as [authHeader|];
    [|done].
  destruct (startsWith authHeader "Bearer ") eqn:Hstart; [|done].
  destruct (jwt_verify _ _ _) as [e|decoded]; split; done.
Qed.

(** ** hr.routes.ts *)

(** X5.  The guard in front of the admin HR routes lets no request through:
    the role list reaches [requireRole] wrapped in an array, so after a
    successful authentication the role test fails for every role.  A
    request is answered 401 when it does not authenticate and 403 when it
    does; in particular an unexpired access token, SUPER_ADMIN's included,
    gets 403 [FORBIDDEN]. *)
Theorem adminHr_guard_admits_nobody now req :
  match adminHr_guard env now req with
  | Respond status message =>
      (status = 401 /\
       (message = AUTH_ERRORS.UNAUTHORIZED \/
        message = AUTH_ERRORS.TOKEN_INVALID) /\
       authenticate env now req = Respond status message) \/
      (status = 403 /\ message = AUTH_ERRORS.FORBIDDEN /\
       exists req', authenticate env now req = Next req')
  | Next _ | NextError _ => False
  end.
Proof.
  unfold adminHr_guard. rewrite authenticate_cases.
  destruct (AuthenticatedRequest.authorization req) as [authHeader|];
    [|left; by auto].
  destruct (startsWith authHeader "Bearer "); [|left; by auto].
  destruct (jwt_verify _ _ _) as [e|decoded]; [left; by auto|].
  rewrite requireRole_untyped_array. simpl. right. eauto.
Qed.

(** ** The session manager *)

(** X7.  Refresh never writes the store, whatever the request and whether
    it succeeds or not: the refresh token is not rotated and the
    fingerprint stays. *)
Theorem refresh_never_writes now (input : RefreshTokenInput.t) db :
  snd (refreshAccessToken env now input db) = db.
Proof.
  destruct input as [token]. rewrite refreshAccessToken_cases.
  destruct (jwt_verify _ _ _) as [e|decoded]; [done|]. simpl.
  destruct (db !! _) as [u|]; [|done].
  destruct (IUserDocument.isActive u); [|done].
  by case_decide.
Qed.

Lemma loginUser_store now (input : LoginInput.t) db :
  snd (loginUser env now input db) = db \/
  exists _id u refreshToken,
    db !! _id = Some u /\
    snd (loginUser env now input db) =
      <[_id := IUserDocument.set_refreshToken (Some refreshToken) u]> db.
Proof.
  rewrite loginUser_cases.
  destruct (User_findOne_email _ db) as [[e|[[_id u]|]] db'] eqn:Hfind;
    [by left| |by left].
  assert (db' = db) as -> by (by inversion Hfind).
  apply User_findOne_email_found in Hfind as [Hu _].
  destruct (IUserDocument.isActive u); [|by left].
  destruct (comparePassword u _); [|by left].
  right. by eexists _, _, _.
Qed.

(** X8.  Login and Logout change nothing of the store but refresh
    fingerprints, whatever their arguments and outcome: with the
    [refreshToken] fields blanked, the store after either is the store
    before.  They add and remove no account and leave every email, password
    digest, role and [isActive] flag alone. *)
Theorem session_operations_touch_only_fingerprints
    now (login : LoginInput.t) (userId : string) db :
  let accounts (d : Users) := IUserDocument.set_refreshToken None <$> d in
  accounts (snd (loginUser env now login db)) = accounts db /\
  accounts (snd (logoutUser userId db)) = accounts db.
Proof.
  intros accounts. unfold accounts. split_and!.
  - destruct (loginUser_store now login db)
      as [->|(_id & u & rt & Hu & ->)]; [done|].
    rewrite fmap_insert. apply map_eq. intros id.
    destruct (decide (_id = id)) as [->|Hne].
    + by rewrite lookup_insert_eq, lookup_fmap, Hu.
    + by rewrite lookup_insert_ne.
  - apply map_eq. intros id. rewrite !lookup_fmap, logoutUser_lookup.
    case_decide; [|done]. by destruct (db !! id).
Qed.

End ApplicationProperties.

(** ** Lookups by address and the unique index *)

Section Index.
Implicit Types (db : Users) (u : IUserDocument.t) (id e : string).

Lemma User_findOne_email_cases e db :
  (User_findOne_email e db = (inr None, db) /\ no_account_with_email e db) \/
  (exists id u,
     User_findOne_email e db = (inr (Some (id, u)), db) /\
     db !! id = Some u /\ IUserDocument.email u = e).
Proof.
  unfold User_findOne_email.
  destruct (list_find _ _) as [[i [id u]]|] eqn:Hfind; simpl.
  - right. exists id, u. split; [done|].
    apply list_find_Some in Hfind as (Hi & He & _).
    by apply list_elem_of_lookup_2, elem_of_map_to_list in Hi.
  - left. split; [done|].
    apply list_find_None in Hfind. rewrite Forall_forall in Hfind.
    intros id u Hu. apply (Hfind (id, u)). by apply elem_of_map_to_list.
Qed.

(** The index only looks at addresses. *)
Lemma unique_email_index_emails db1 db2 :
  (forall id, IUserDocument.email <$> db2 !! id =
              IUserDocument.email <$> db1 !! id) ->
  unique_email_index db1 -> unique_email_index db2.
Proof.
  intros Hsame Hindex id1 u1 Hu1 id2 u2 Hu2 He.
  pose proof (Hsame id1) as H1. pose proof (Hsame id2) as H2.
  rewrite Hu1 in H1. rewrite Hu2 in H2. simpl in *.
  destruct (db1 !! id1) as [v1|] eqn:Hv1; [|done].
  destruct (db1 !! id2) as [v2|] eqn:Hv2; [|done].
  simplify_eq/=. apply (Hindex id1 v1 Hv1 id2 v2 Hv2). congruence.
Qed.

Lemma unique_email_index_update db id u u' :
  db !! id = Some u ->
  IUserDocument.email u' = IUserDocument.email u ->
  unique_email_index db -> unique_email_index (<[id := u']> db).
Proof.
  intros Hu He. apply unique_email_index_emails. intros id'.
  destruct (decide (id = id')) as [->|Hne].
  - by rewrite lookup_insert_eq, Hu; simpl; rewrite He.
  - by rewrite lookup_insert_ne.
Qed.

Lemma unique_email_index_insert db id u :
  db !! id = None ->
  no_account_with_email (IUserDocument.email u) db ->
  unique_email_index db -> unique_email_index (<[id := u]> db).
Proof.
  intros Hfresh Hnone Hindex id1 u1 Hu1 id2 u2 Hu2 He.
  destruct (decide (id = id1)) as [<-|Hne1], (decide (id = id2)) as [<-|Hne2];
    [done|..].
  - rewrite lookup_insert_eq in Hu1. rewrite lookup_insert_ne in Hu2 by done.
    simplify_eq. by destruct (Hnone id2 u2 Hu2).
  - rewrite lookup_insert_eq in Hu2. rewrite lookup_insert_ne in Hu1 by done.
    simplify_eq. by destruct (Hnone id1 u1 Hu1).
  - rewrite lookup_insert_ne in Hu1 by done.
    rewrite lookup_insert_ne in Hu2 by done.
    by apply (Hindex id1 u1 Hu1 id2 u2 Hu2).
Qed.

End Index.

Section ServiceProperties.
Context (env : Env) {jwt : Jsonwebtoken} {bcrypt : Bcrypt}
        {hashing : BcryptHash} {mongoose : MongooseErrors}.
Implicit Types (db : Users) (u : IUserDocument.t) (now t : Z).
Implicit Types (req : AuthenticatedRequest.t) (token : string).

(** ** Case analyses of the added services *)

Lemma User_create_cases (_id salt email password : string) (role : UserRole)
    (isActive : bool) db :
  let email' := userSchema.email_setters email in
  let doc :=
    IUserDocument.mk email' (bcrypt_hash password BCRYPT_SALT_ROUNDS salt)
      role isActive None in
  (User_create _id salt email password role isActive db =
     (inr doc, <[_id := doc]> db) /\
   userSchema.validate email' password = true /\
   db !! _id = None /\ no_account_with_email email' db) \/
  (exists e,
     User_create _id salt email password role isActive db = (inl e, db) /\
     (userSchema.validate email' password = false \/
      is_Some (db !! _id) \/ ~ no_account_with_email email' db)).
Proof.
  intros email' doc. unfold User_create. fold email'.
  destruct (userSchema.validate email' password) eqn:Hvalid; simpl;
    [|right; eauto].
  case_bool_decide as Hid; simpl; [right; eauto|].
  case_bool_decide as He; simpl; [right; eauto|].
  left. split_and!; [done..| |].
  - by apply eq_None_not_Some.
  - by destruct (decide (no_account_with_email email' db)).
Qed.

Lemma registerUser_cases (_id salt : string) (input : RegisterInput.t) db :
  registerUser _id salt input db =
    match User_findOne_email (RegisterInput.email input) db with
    | (inr None, _) =>
        match User_create _id salt (RegisterInput.email input)
                (RegisterInput.password input)
                (default EMPLOYEE (RegisterInput.role input)) true db with
        | (inr user, db') =>
            (inr (UserObject.mk _id (IUserDocument.email user)
                    (IUserDocument.role user) (IUserDocument.isActive user)),
             db')
        | (inl e, db') => (inl e, db')
        end
    | _ => (inl (Error "User with this email already exists"), db)
    end.
Proof.
  unfold registerUser, bind, User_findOne_email, ret, throw.
  destruct (list_find _ _) as [[i [id u]]|]; simpl; [done|].
  by destruct (User_create _ _ _ _ _ _ db) as [[e|user] db'].
Qed.

Lemma createHrUser_cases (_id salt : string) (randomBytes : list Byte.byte)
    (input : CreateHrInput.t) db :
  createHrUser _id salt randomBytes input db =
    match User_findOne_email (CreateHrInput.email input) db with
    | (inr None, _) =>
        let password :=
          match CreateHrInput.password input with
          | Some p =>
              if bool_decide (p = "") then generateRandomPassword randomBytes
              else p
          | None => generateRandomPassword randomBytes
          end in
        match User_create _id salt (CreateHrInput.email input) password
                HR true db with
        | (inr user, db') =>
            (inr (UserObject.mk _id (IUserDocument.email user)
                    (IUserDocument.role user) (IUserDocument.isActive user)),
             db')
        | (inl e, db') => (inl e, db')
        end
    | _ => (inl (Error "User with this email already exists"), db)
    end.
Proof.
  unfold createHrUser, bind, User_findOne_email, ret, throw.
  destruct (list_find _ _) as [[i [id u]]|]; simpl; [done|].
  by destruct (User_create _ _ _ _ _ _ db) as [[e|user] db'].
Qed.

Lemma getUserById_cases (userId : string) db :
  getUserById userId db =
    (match db !! userId with
     | Some u =>
         if IUserDocument.isActive u
         then inr (UserObject.mk userId (IUserDocument.email u)
                     (IUserDocument.role u) true)
         else inl (Error "User not found")
     | None => inl (Error "User not found")
     end, db).
Proof.
  unfold getUserById, bind, User_findById, ret, throw.
  destruct (db !! userId) as [u|]; [|done].
  by destruct (IUserDocument.isActive u) eqn:Hactive; simpl; rewrite ?Hactive.
Qed.

Lemma updateHrStatus_cases (userId : string) (input : UpdateHrStatusInput.t)
    db :
  updateHrStatus userId input db =
    match db !! userId with
    | Some u =>
        if decide (IUserDocument.role u = HR)
        then
          let u' := set_isActive (UpdateHrStatusInput.isActive input) u in
          (inr (UserObject.mk userId (IUserDocument.email u) HR
                  (UpdateHrStatusInput.isActive input)),
           <[userId := u']> db)
        else (inl (Error "User is not an HR user"), db)
    | None => (inl (Error "User not found"), db)
    end.
Proof.
  unfold updateHrStatus, bind, User_findById, User_save, ret, throw.
  destruct (db !! userId) as [u|]; [|done].
  case_bool_decide as Hr; case_decide; simpl; try done.
  by rewrite Hr.
Qed.

(** ** Invariants and how the services compose *)

(** X9.  The unique index on [email] is an invariant of the services: from
    a store without two accounts of the same address, Login, Logout,
    [updateHrStatus], [registerUser] and [createHrUser] all lead to such a
    store, whatever their arguments and whether they succeed or fail. *)
Theorem services_keep_unique_email_index
    now (login : LoginInput.t) (userId _id salt : string)
    (status : UpdateHrStatusInput.t) (register : RegisterInput.t)
    (randomBytes : list Byte.byte) (hr : CreateHrInput.t) db :
  unique_email_index db ->
  unique_email_index (snd (loginUser env now login db)) /\
  unique_email_index (snd (logoutUser userId db)) /\
  unique_email_index (snd (updateHrStatus userId status db)) /\
  unique_email_index (snd (registerUser _id salt register db)) /\
  unique_email_index (snd (createHrUser _id salt randomBytes hr db)).
Proof.
  intros Hindex. split_and!.
  - destruct (loginUser_store env now login db)
      as [->|(id & u & rt & Hu & ->)]; [done|].
    by eapply unique_email_index_update.
  - revert Hindex. apply unique_email_index_emails. intros id.
    rewrite logoutUser_lookup. case_decide; [|done].
    by destruct (db !! id).
  - rewrite updateHrStatus_cases.
    destruct (db !! userId) as [u|] eqn:Hu; [|done].
    case_decide; [|done]. simpl.
    by eapply unique_email_index_update.
  - rewrite registerUser_cases.
    destruct (User_findOne_email_cases (RegisterInput.email register) db)
      as [[-> _]|(id & u & -> & _)]; [|done].
    destruct (User_create_cases _id salt (RegisterInput.email register)
                (RegisterInput.password register)
                (default EMPLOYEE (RegisterInput.role register)) true db)
      as [(-> & _ & Hfresh & Hnone)|(e & -> & _)]; [|done].
    simpl. by apply unique_email_index_insert.
  - rewrite createHrUser_cases.
    destruct (User_findOne_email_cases (CreateHrInput.email hr) db)
      as [[-> _]|(id & u & -> & _)]; [|done].
    simpl.
    destruct (User_create_cases _id salt (CreateHrInput.email hr)
                (match CreateHrInput.password hr with
                 | Some p =>
                     if bool_decide (p = "")
                     then generateRandomPassword randomBytes else p
                 | None => generateRandomPassword randomBytes
                 end) HR true db)
      as [(-> & _ & Hfresh & Hnone)|(e & -> & _)]; [|done].
    simpl. by apply unique_email_index_insert.
Qed.

(** X10.  After a successful Login at time [t], Refresh with the returned
    refresh token succeeds at every time before [t + 604800] (seven days)
    and issues an access token for the account's id, email and role; from
    [t + 604800] on the same request fails with [REFRESH_TOKEN_INVALID]. *)
Theorem refresh_after_login t now (input : LoginInput.t) db (_id : string) u :
  unique_email_index db ->
  db !! _id = Some u ->
  IUserDocument.email u = LoginInput.email input ->
  IUserDocument.isActive u = true ->
  comparePassword u (LoginInput.password input) = true ->
  exists (response : LoginResponse.t) (db' : Users),
    loginUser env t input db = (inr response, db') /\
    refreshAccessToken env now
      (RefreshTokenInput.mk (LoginResponse.refreshToken response)) db' =
      (if decide (t + 604800 <= now)
       then inl (Error AUTH_ERRORS.REFRESH_TOKEN_INVALID)
       else inr (generateAccessToken env now
                   (JWTPayload.mk _id (Some (IUserDocument.email u))
                                  (Some (IUserDocument.role u)))),
       db').
Proof.
  intros Hindex Hu He Hactive Hpw.
  pose proof (User_findOne_email_stored db _id u Hindex Hu) as Hfind.
  rewrite He in Hfind.
  eexists _, _. split.
  - rewrite loginUser_cases, Hfind, Hactive, Hpw. simpl. reflexivity.
  - simpl. rewrite refreshAccessToken_cases, verify_refresh_token.
    rewrite decide_True by done. case_decide; [done|]. simpl.
    rewrite lookup_insert_eq. simpl. rewrite Hactive.
    by rewrite decide_True.
Qed.

(** X11.  What Refresh answers depends on the store only through the
    record of the account the token names: logging another account out
    changes nothing for this one, and neither does a login of another
    account. *)
Theorem other_accounts_do_not_disturb_refresh
    t now token (decoded : Decoded.t) (other : string)
    (login : LoginInput.t) db :
  let refresh d :=
    fst (refreshAccessToken env now (RefreshTokenInput.mk token) d) in
  jwt_verify token (JWT_REFRESH_SECRET env) now = inr decoded ->
  other <> JWTPayload.userId (Decoded.payload decoded) ->
  refresh (snd (logoutUser other db)) = refresh db /\
  (forall (response : LoginResponse.t) (db' : Users),
     loginUser env t login db = (inr response, db') ->
     PublicUser.id (LoginResponse.user response) = other ->
     refresh db' = refresh db).
Proof.
  intros refresh Hv Hother.
  assert (Hdep : forall d,
            d !! JWTPayload.userId (Decoded.payload decoded) =
              db !! JWTPayload.userId (Decoded.payload decoded) ->
            refresh d = refresh db).
  { intros d Hd. unfold refresh.
    rewrite !refreshAccessToken_cases, Hv. simpl. rewrite Hd.
    destruct (db !! _) as [u|]; [|done].
    destruct (IUserDocument.isActive u); [|done].
    by case_decide. }
  split.
  - apply Hdep. rewrite logoutUser_lookup. by rewrite decide_False.
  - intros response db'. rewrite loginUser_cases.
    destruct (User_findOne_email _ db) as [[e|[[id u]|]] d]; [done| |done].
    destruct (IUserDocument.isActive u); [|done].
    destruct (comparePassword u _); [|done].
    intros [= <- <-]. simpl. intros ->.
    apply Hdep. by rewrite lookup_insert_ne.
Qed.

Lemma registerUser_success (_id salt : string) (input : RegisterInput.t) db :
  userSchema.email_setters (RegisterInput.email input) =
    RegisterInput.email input ->
  userSchema.validate (RegisterInput.email input)
    (RegisterInput.password input) = true ->
  no_account_with_email (RegisterInput.email input) db ->
  db !! _id = None ->
  registerUser _id salt input db =
    (inr (UserObject.mk _id (RegisterInput.email input)
            (default EMPLOYEE (RegisterInput.role input)) true),
     <[_id := IUserDocument.mk (RegisterInput.email input)
                (bcrypt_hash (RegisterInput.password input)
                   BCRYPT_SALT_ROUNDS salt)
                (default EMPLOYEE (RegisterInput.role input)) true None]> db).
Proof.
  intros Hnorm Hvalid Hnone Hfresh.
  rewrite registerUser_cases.
  rewrite (User_findOne_email_absent _ _ Hnone).
  destruct (User_create_cases _id salt (RegisterInput.email input)
              (RegisterInput.password input)
              (default EMPLOYEE (RegisterInput.role input)) true db)
    as [(Hc & _)|(e & _ & [Hv|[Hs|Hn]])].
  - rewrite Hc, Hnorm. done.
  - rewrite Hnorm in Hv. congruence.
  - rewrite Hfresh in Hs. by destruct Hs.
  - rewrite Hnorm in Hn. done.
Qed.

(** X13.  Registering a (lower-cased, trimmed) address an account already
    has is refused with "User with this email already exists"; nothing is
    written. *)
Theorem registerUser_duplicate (_id salt : string) (input : RegisterInput.t)
    db (existing : string) u :
  userSchema.email_setters (RegisterInput.email input) =
    RegisterInput.email input ->
  db !! existing = Some u ->
  IUserDocument.email u = RegisterInput.email input ->
  registerUser _id salt input db =
    (inl (Error "User with this email already exists"), db).
Proof.
  intros _ Hu He. rewrite registerUser_cases.
  destruct (User_findOne_email_cases (RegisterInput.email input) db)
    as [[_ Hnone]|(id & v & -> & _)]; [|done].
  by destruct (Hnone existing u Hu).
Qed.

(** X14.  Registering a new, schema-valid address under a fresh id stores
    one new account (the address as given, the bcrypt digest of the
    password, the requested role or EMPLOYEE when none was given, active,
    no refresh fingerprint) and returns its view; every other account is
    left alone; and Login with the same address and password then
    succeeds for that account. *)
Theorem registerUser_then_login (_id salt : string) (input : RegisterInput.t)
    now db :
  let email := RegisterInput.email input in
  let role := default EMPLOYEE (RegisterInput.role input) in
  let doc :=
    IUserDocument.mk email
      (bcrypt_hash (RegisterInput.password input) BCRYPT_SALT_ROUNDS salt)
      role true None in
  unique_email_index db ->
  userSchema.email_setters email = email ->
  userSchema.validate email (RegisterInput.password input) = true ->
  no_account_with_email email db ->
  db !! _id = None ->
  registerUser _id salt input db =
    (inr (UserObject.mk _id email role true), <[_id := doc]> db) /\
  exists (response : LoginResponse.t) (db' : Users),
    loginUser env now
      (LoginInput.mk email (RegisterInput.password input))
      (<[_id := doc]> db) = (inr response, db') /\
    LoginResponse.user response = PublicUser.mk _id email role.
Proof.
  intros email role doc. subst email role doc.
  intros Hindex Hnorm Hvalid Hnone Hfresh.
  set (doc := IUserDocument.mk _ _ _ _ _).
  split; [by apply registerUser_success|].
  assert (Hindex' : unique_email_index (<[_id := doc]> db))
    by (by apply unique_email_index_insert).
  pose proof (User_findOne_email_stored (<[_id := doc]> db) _id doc Hindex'
                (lookup_insert_eq _ _ _)) as Hfind.
  change (IUserDocument.email doc) with (RegisterInput.email input) in Hfind.
  assert (Hpw : comparePassword doc (RegisterInput.password input) = true)
    by apply bcrypt_compare_hash.
  eexists _, _. split.
  - rewrite loginUser_cases. cbn [LoginInput.email LoginInput.password].
    rewrite Hfind. cbn [IUserDocument.isActive doc]. rewrite Hpw.
    reflexivity.
  - done.
Qed.

End ServiceProperties.

(** ** Passwords *)

Section Passwords.

Lemma String_get_lt (s : string) (k : nat) :
  (k < String.length s)%nat ->
  exists c, String.get k s = Some c /\ In c (list_ascii_of_string s).
Proof.
  revert k. induction s as [|a s IH]; intros k Hk; simpl in *; [lia|].
  destruct k as [|k]; [by eauto|].
  destruct (IH k) as (c & Hc & Hin); [lia|]. eauto.
Qed.

Lemma append_length (s1 s2 : string) :
  String.length (s1 +:+ s2) = (String.length s1 + String.length s2)%nat.
Proof. induction s1 as [|a s1 IH]; simpl; [done|]. by rewrite IH. Qed.

Lemma append_chars (s1 s2 : string) :
  list_ascii_of_string (s1 +:+ s2) =
    (list_ascii_of_string s1 ++ list_ascii_of_string s2)%list.
Proof. induction s1 as [|a s1 IH]; simpl; [done|]. by rewrite IH. Qed.

Lemma charset_pick_in_range (randomBytes : list Byte.byte) (i : nat) :
  (i < length randomBytes)%nat ->
  exists c, charset_pick randomBytes i = String c EmptyString /\
            In c (list_ascii_of_string charset).
Proof.
  intros Hi. unfold charset_pick.
  destruct (lookup_lt_is_Some_2 randomBytes i Hi) as [b ->].
  destruct (String_get_lt charset
              (Byte.to_nat b mod String.length charset)) as (c & -> & Hin).
  { apply Nat.mod_upper_bound. done. }
  eauto.
Qed.

Lemma generate_loop (randomBytes : list Byte.byte) (indices : list nat)
    (acc : string) :
  Forall (fun i => (i < length randomBytes)%nat) indices ->
  let password :=
    foldl (fun password i => password +:+ charset_pick randomBytes i)
          acc indices in
  String.length password = (String.length acc + length indices)%nat /\
  (Forall (fun c => In c (list_ascii_of_string charset))
          (list_ascii_of_string acc) ->
   Forall (fun c => In c (list_ascii_of_string charset))
          (list_ascii_of_string password)).
Proof.
  revert acc. induction indices as [|i indices IH]; intros acc Hall; simpl.
  - split; [lia|done].
  - apply Forall_cons in Hall as [Hi Hall].
    destruct (charset_pick_in_range randomBytes i Hi) as (c & Hc & Hin).
    destruct (IH (acc +:+ charset_pick randomBytes i) Hall) as [Hlen Hchars].
    split.
    + rewrite Hlen, append_length, Hc. simpl. lia.
    + intros Hacc. apply Hchars. rewrite append_chars, Hc. simpl.
      apply Forall_app. split; [done|]. by apply Forall_singleton.
Qed.

Lemma generateRandomPassword_length (randomBytes : list Byte.byte) :
  length randomBytes = 16%nat ->
  String.length (generateRandomPassword randomBytes) = 16%nat.
Proof.
  intros Hlen.
  destruct (generate_loop randomBytes (seq 0 16) EmptyString) as [Hl _];
    [|exact Hl].
  apply Forall_forall. intros i Hi%elem_of_seq. lia.
Qed.

Lemma password_issues_minlength (password : string) :
  registerSchema.password_issues password = [] ->
  userSchema.password_minlength password = true.
Proof.
  unfold registerSchema.password_issues, userSchema.password_minlength.
  destruct (String.length password <? 8)%nat eqn:Hlen; [done|].
  intros _. apply Nat.leb_le. by apply Nat.ltb_ge in Hlen.
Qed.

(** X23.  From the 16 bytes [crypto.randomBytes(16)] returns,
    [generateRandomPassword] builds a password of exactly 16 characters,
    all taken from the 70-character charset; such a password passes the
    [minlength: 8] validator of the user schema. *)
Theorem generateRandomPassword_shape (randomBytes : list Byte.byte) :
  length randomBytes = 16%nat ->
  let password := generateRandomPassword randomBytes in
  String.length password = 16%nat /\
  Forall (fun c => In c (list_ascii_of_string charset))
         (list_ascii_of_string password) /\
  userSchema.password_minlength password = true.
Proof.
  intros Hlen password.
  destruct (generate_loop randomBytes (seq 0 16) EmptyString)
    as [Hl Hchars].
  { apply Forall_forall. intros i Hi%elem_of_seq. lia. }
  fold (generateRandomPassword randomBytes) in Hl, Hchars. fold password in Hl, Hchars.
  simpl in Hl. split_and!; [done|by apply Hchars|].
  unfold userSchema.password_minlength. by rewrite Hl.
Qed.

(** X24.  The characters are not drawn uniformly: [byte % 70] sends four of
    the 256 byte values to each of the first 46 characters of the charset
    and three to each of the other 24. *)
Theorem generateRandomPassword_modulo_bias (i : nat) (c : ascii) :
  let all_bytes := omap Byte.of_nat (seq 0 256) in
  String.get i charset = Some c ->
  length (filter (fun b => charset_pick [b] 0 = String c EmptyString)
                 all_bytes) =
    if (i <? 46)%nat then 4%nat else 3%nat.
Proof.
  intros all_bytes Hget.
  assert (Hi : (i < 70)%nat).
  { destruct (decide (i < 70)%nat) as [|Hge]; [done|].
    assert (String.get i charset = None) as Hnone; [|congruence].
    clear Hget. do 70 (destruct i as [|i]; [lia|]). reflexivity. }
  do 70 (destruct i as [|i];
         [injection Hget as <-; vm_compute; reflexivity|]).
  lia.
Qed.

(** X25.  The password rules of the request schemas report nothing exactly
    for passwords of at least 8 characters with an uppercase letter, a
    lowercase letter, a digit and a character that is none of these; every
    such password passes the model's [minlength] validator.  A password of
    [generateRandomPassword] is not held to these rules: sixteen zero bytes
    give sixteen times "a", which the rules reject three times over. *)
Theorem password_rules (password : string) :
  (registerSchema.password_issues password = [] <->
   (PASSWORD_REQUIREMENTS.MIN_LENGTH <= String.length password)%nat /\
   test_class is_upper password = true /\
   test_class is_lower password = true /\
   test_class is_digit password = true /\
   test_class (fun c => negb (is_upper c || is_lower c || is_digit c))
     password = true) /\
  (registerSchema.password_issues password = [] ->
   userSchema.password_minlength password = true) /\
  registerSchema.password_issues
    (generateRandomPassword (replicate 16 Byte.x00)) =
    ["Password must contain at least one uppercase letter";
     "Password must contain at least one number";
     "Password must contain at least one special character"].
Proof.
  assert (Hiff : registerSchema.password_issues password = [] <->
    (PASSWORD_REQUIREMENTS.MIN_LENGTH <= String.length password)%nat /\
    test_class is_upper password = true /\
    test_class is_lower password = true /\
    test_class is_digit password = true /\
    test_class (fun c => negb (is_upper c || is_lower c || is_digit c))
      password = true).
  { unfold registerSchema.password_issues, PASSWORD_REQUIREMENTS.MIN_LENGTH.
    destruct (String.length password <? 8)%nat eqn:Hlen;
      [apply Nat.ltb_lt in Hlen|apply Nat.ltb_ge in Hlen];
      destruct (test_class is_upper password),
               (test_class is_lower password),
               (test_class is_digit password),
               (test_class _ password); simpl;
      split; try done; try (intros (? & ? & ? & ? & ?); done || lia);
      intros _; split_and!; done || lia. }
  split_and!; [done| |vm_compute; reflexivity].
  intros (Hlen & _)%Hiff. unfold userSchema.password_minlength.
  by apply Nat.leb_le.
Qed.

End Passwords.

Section RouteProperties.
Context (env : Env) {jwt : Jsonwebtoken} {bcrypt : Bcrypt}
        {hashing : BcryptHash} {mongoose : MongooseErrors}.
Implicit Types (db : Users) (u : IUserDocument.t) (now t : Z).
Implicit Types (req : AuthenticatedRequest.t) (token : string).

(** ** Controllers behind the error middleware *)

Lemma handle_sendSuccess {A B : Type} (service : Async A) (f : A -> B)
    (statusCode : Z) db :
  handle (bind service (fun a => ret (sendSuccess (f a) statusCode None))) db =
    match service db with
    | (inr a, db') =>
        (Success (ApiSuccessResponse.mk statusCode (f a) None), db')
    | (inl e, db') => (errorMiddleware (AppError.mk e None), db')
    end.
Proof. unfold handle, bind, ret. by destruct (service db) as [[e|a] db']. Qed.

Lemma errorMiddleware_Error {A : Type} (message : string) :
  message <> "" ->
  errorMiddleware (A := A) (AppError.mk (Error message) None) =
    Failed 500 message.
Proof.
  intros Hne. unfold errorMiddleware. simpl.
  by rewrite bool_decide_eq_false_2.
Qed.

Lemma loginUser_success t (input : LoginInput.t) db (_id : string) u :
  unique_email_index db ->
  db !! _id = Some u ->
  IUserDocument.email u = LoginInput.email input ->
  IUserDocument.isActive u = true ->
  comparePassword u (LoginInput.password input) = true ->
  loginUser env t input db =
    (inr (LoginResponse.mk
            (generateAccessToken env t
               (JWTPayload.mk _id (Some (IUserDocument.email u))
                              (Some (IUserDocument.role u))))
            (generateRefreshToken env t _id)
            (PublicUser.mk _id (IUserDocument.email u)
                           (IUserDocument.role u))),
     <[_id := IUserDocument.set_refreshToken
                (Some (generateRefreshToken env t _id)) u]> db).
Proof.
  intros Hindex Hu He Hactive Hpw.
  pose proof (User_findOne_email_stored db _id u Hindex Hu) as Hfind.
  rewrite He in Hfind.
  by rewrite loginUser_cases, Hfind, Hactive, Hpw.
Qed.

(** What a protected route does with an unexpired access token. *)
Lemma authenticated_access_token {A : Type} t now (p : JWTPayload.t)
    (user : option Decoded.t)
    (controller : AuthenticatedRequest.t -> Async (ApiSuccessResponse.t A))
    db :
  now < t + 900 ->
  let authHeader := "Bearer " +:+ generateAccessToken env t p in
  authenticated env now (AuthenticatedRequest.mk (Some authHeader) user)
    controller db =
  handle (controller
            (AuthenticatedRequest.mk (Some authHeader)
               (Some (Decoded.mk p t (t + 900))))) db.
Proof.
  intros Hnow authHeader. unfold authenticated, authHeader.
  erewrite authenticate_verify_returns; [done|].
  rewrite verify_access_token, decide_True by done.
  by rewrite decide_False by lia.
Qed.

(** X16.  Once the body has passed validation, the login and refresh
    routes answer 200 with the service's result or 500 with the service's
    message, and nothing else: the errors
    the services throw carry no [statusCode], so the error middleware
    falls back to 500.  A wrong password, an unknown address and an
    inactive account at login, and a bad, expired, superseded or orphaned
    refresh token are all reported with status 500, never 401. *)
Theorem login_and_refresh_routes_status
    now (login : LoginInput.t) (refresh : RefreshTokenInput.t) db :
  match fst (route_login env now login db) with
  | Success response =>
      ApiSuccessResponse.statusCode response = 200 /\
      fst (loginUser env now login db) =
        inr (ApiSuccessResponse.data response)
  | Failed status message =>
      status = 500 /\
      fst (loginUser env now login db) = inl (Error message) /\
      (message = AUTH_ERRORS.INVALID_CREDENTIALS \/
       message = AUTH_ERRORS.USER_INACTIVE)
  | Refused _ _ => False
  end /\
  match fst (route_refresh env now refresh db) with
  | Success response =>
      ApiSuccessResponse.statusCode response = 200 /\
      fst (refreshAccessToken env now refresh db) =
        inr (ApiSuccessResponse.data response)
  | Failed status message =>
      status = 500 /\
      fst (refreshAccessToken env now refresh db) = inl (Error message) /\
      (message = AUTH_ERRORS.REFRESH_TOKEN_INVALID \/
       message = AUTH_ERRORS.USER_INACTIVE)
  | Refused _ _ => False
  end.
Proof.
  split.
  - unfold route_login, loginController.
    rewrite (handle_sendSuccess (loginUser env now login) id).
    rewrite loginUser_cases.
    destruct (User_findOne_email _ db) as [[e|[[_id u]|]] db'];
      simpl; [by auto| |by auto].
    destruct (IUserDocument.isActive u); simpl; [|by auto].
    destruct (comparePassword u _); simpl; by auto.
  - unfold route_refresh, refreshTokenController.
    rewrite (handle_sendSuccess (refreshAccessToken env now refresh) id).
    destruct refresh as [token]. rewrite refreshAccessToken_cases.
    destruct (jwt_verify _ _ _) as [e|decoded]; simpl; [by auto|].
    destruct (db !! _) as [u|]; simpl; [|by auto].
    destruct (IUserDocument.isActive u); simpl; [|by auto].
    case_decide; simpl; by auto.
Qed.


(** X18.  A session from login to logout, as the routes answer it.  For a
    stored active account with a non-empty id and its password: the login
    route answers 200 with both tokens; with the access token as bearer
    token (before its expiry) the [/me] route answers 200 with the
    account's id, email and role, and the logout route answers 200 and
    clears the account's fingerprint; after that the refresh route turns
    the refresh token of the login down, at any time, with status 500 and
    [REFRESH_TOKEN_INVALID]. *)
Theorem session_life_cycle t now now' (input : LoginInput.t) db
    (_id : string) u :
  unique_email_index db ->
  db !! _id = Some u ->
  _id <> "" ->
  IUserDocument.email u = LoginInput.email input ->
  IUserDocument.isActive u = true ->
  comparePassword u (LoginInput.password input) = true ->
  now < t + 900 ->
  exists (response : LoginResponse.t) (db1 db2 : Users),
    let bearer :=
      AuthenticatedRequest.mk
        (Some ("Bearer " +:+ LoginResponse.accessToken response)) None in
    route_login env t input db =
      (Success (ApiSuccessResponse.mk 200 response None), db1) /\
    route_me env now bearer db1 =
      (Success (ApiSuccessResponse.mk 200
                  (UserObject.mk _id (IUserDocument.email u)
                                 (IUserDocument.role u) true) None), db1) /\
    route_logout env now bearer db1 =
      (Success (ApiSuccessResponse.mk 200 "Logged out successfully" None),
       db2) /\
    db2 !! _id = Some (IUserDocument.set_refreshToken None u) /\
    route_refresh env now'
      (RefreshTokenInput.mk (LoginResponse.refreshToken response)) db2 =
      (Failed 500 AUTH_ERRORS.REFRESH_TOKEN_INVALID, db2).
Proof.
  intros Hindex Hu Hid He Hactive Hpw Hnow.
  pose proof (loginUser_success t input db _id u Hindex Hu He Hactive Hpw)
    as Hlogin.
  eexists (LoginResponse.mk _ _ _), (<[_id := _]> db),
          (alter (IUserDocument.set_refreshToken None) _id (<[_id := _]> db)).
  cbn [LoginResponse.accessToken LoginResponse.refreshToken]. split_and!.
  - unfold route_login, loginController.
    rewrite (handle_sendSuccess (loginUser env t input) id), Hlogin.
    reflexivity.
  - unfold route_me. rewrite authenticated_access_token by done.
    unfold handle, getCurrentUserController, req_userId, falsy, bind. simpl.
    rewrite bool_decide_eq_false_2 by done. simpl.
    rewrite getUserById_cases, lookup_insert_eq. simpl.
    by rewrite Hactive.
  - unfold route_logout. rewrite authenticated_access_token by done.
    unfold handle, logoutController, req_userId, falsy, bind. simpl.
    rewrite bool_decide_eq_false_2 by done. simpl. reflexivity.
  - rewrite lookup_alter_eq, lookup_insert_eq. done.
  - unfold route_refresh, refreshTokenController.
    rewrite (handle_sendSuccess (refreshAccessToken env now' _) id).
    rewrite refreshAccessToken_cases, verify_refresh_token.
    rewrite decide_True by done. case_decide; [done|]. simpl.
    rewrite lookup_alter_eq, lookup_insert_eq. simpl. by rewrite Hactive.
Qed.

(** X19.  Logout does not take the access token back: after the logout
    route has answered 200, the [/me] route still answers 200 to the same
    bearer token until the token expires. *)
Theorem access_token_survives_logout t now now' (input : LoginInput.t) db
    (_id : string) u :
  unique_email_index db ->
  db !! _id = Some u ->
  _id <> "" ->
  IUserDocument.email u = LoginInput.email input ->
  IUserDocument.isActive u = true ->
  comparePassword u (LoginInput.password input) = true ->
  now < t + 900 ->
  now' < t + 900 ->
  exists (response : LoginResponse.t) (db1 db2 : Users),
    let bearer :=
      AuthenticatedRequest.mk
        (Some ("Bearer " +:+ LoginResponse.accessToken response)) None in
    loginUser env t input db = (inr response, db1) /\
    route_logout env now bearer db1 =
      (Success (ApiSuccessResponse.mk 200 "Logged out successfully" None),
       db2) /\
    route_me env now' bearer db2 =
      (Success (ApiSuccessResponse.mk 200
                  (UserObject.mk _id (IUserDocument.email u)
                                 (IUserDocument.role u) true) None), db2).
Proof.
  intros Hindex Hu Hid He Hactive Hpw Hnow Hnow'.
  pose proof (loginUser_success t input db _id u Hindex Hu He Hactive Hpw)
    as Hlogin.
  eexists (LoginResponse.mk _ _ _), (<[_id := _]> db),
          (alter (IUserDocument.set_refreshToken None) _id (<[_id := _]> db)).
  cbn [LoginResponse.accessToken LoginResponse.refreshToken].
  split_and!; [exact Hlogin| |].
  - unfold route_logout. rewrite authenticated_access_token by done.
    unfold handle, logoutController, req_userId, falsy, bind. simpl.
    rewrite bool_decide_eq_false_2 by done. simpl. reflexivity.
  - unfold route_me. rewrite authenticated_access_token by done.
    unfold handle, getCurrentUserController, req_userId, falsy, bind. simpl.
    rewrite bool_decide_eq_false_2 by done. simpl.
    rewrite getUserById_cases, lookup_alter_eq, lookup_insert_eq. simpl.
    by rewrite Hactive.
Qed.

(** ** hr.service.ts *)

(** X20.  [updateHrStatus] writes at most the [isActive] flag of the one
    account it is called for, and only when that account has role HR: with
    the flags blanked the store is unchanged, other ids keep their records,
    and an account of another role is left exactly as it was, with the
    error "User is not an HR user". *)
Theorem updateHrStatus_frame (userId : string) (input : UpdateHrStatusInput.t)
    db :
  let db' := snd (updateHrStatus userId input db) in
  (set_isActive true <$> db') = (set_isActive true <$> db) /\
  (forall id, id <> userId -> db' !! id = db !! id) /\
  (forall u, db !! userId = Some u -> IUserDocument.role u <> HR ->
     updateHrStatus userId input db =
       (inl (Error "User is not an HR user"), db)).
Proof.
  intros db'. unfold db'. rewrite updateHrStatus_cases.
  destruct (db !! userId) as [u|] eqn:Hu; [|by split_and!].
  case_decide as Hr; [|split_and!; [done..|by intros ? [= <-]]].
  simpl. split_and!.
  - rewrite fmap_insert. apply map_eq. intros id.
    destruct (decide (userId = id)) as [->|Hne].
    + by rewrite lookup_insert_eq, lookup_fmap, Hu.
    + by rewrite lookup_insert_ne.
  - intros id Hne. by rewrite lookup_insert_ne.
  - intros ? [= <-] ?. done.
Qed.

(** X21.  Once [updateHrStatus] has deactivated an HR account, the account
    is locked out of the session manager although nothing else about it
    changed: Login with the right password fails with [USER_INACTIVE],
    Refresh with the account's own, still stored and still valid refresh
    token fails with [USER_INACTIVE], and [getUserById] answers
    "User not found". *)
Theorem deactivated_account_locked_out now (input : LoginInput.t) token
    (decoded : Decoded.t) db u :
  let userId := JWTPayload.userId (Decoded.payload decoded) in
  let db' :=
    snd (updateHrStatus userId (UpdateHrStatusInput.mk false) db) in
  unique_email_index db ->
  db !! userId = Some u ->
  IUserDocument.role u = HR ->
  IUserDocument.email u = LoginInput.email input ->
  comparePassword u (LoginInput.password input) = true ->
  IUserDocument.refreshToken u = Some token ->
  jwt_verify token (JWT_REFRESH_SECRET env) now = inr decoded ->
  fst (updateHrStatus userId (UpdateHrStatusInput.mk false) db) =
    inr (UserObject.mk userId (IUserDocument.email u) HR false) /\
  db' !! userId = Some (set_isActive false u) /\
  loginUser env now input db' = (inl (Error AUTH_ERRORS.USER_INACTIVE), db') /\
  refreshAccessToken env now (RefreshTokenInput.mk token) db' =
    (inl (Error AUTH_ERRORS.USER_INACTIVE), db') /\
  getUserById userId db' = (inl (Error "User not found"), db').
Proof.
  intros userId db' Hindex Hu Hr He Hpw Hfp Hv.
  assert (Hupd : updateHrStatus userId (UpdateHrStatusInput.mk false) db =
                 (inr (UserObject.mk userId (IUserDocument.email u) HR false),
                  <[userId := set_isActive false u]> db)).
  { rewrite updateHrStatus_cases, Hu. by rewrite decide_True. }
  unfold db'. rewrite Hupd. simpl.
  assert (Hu' : <[userId := set_isActive false u]> db !! userId =
                Some (set_isActive false u)) by apply lookup_insert_eq.
  split_and!; [done|done| | |].
  - rewrite loginUser_cases.
    rewrite <- He.
    change (IUserDocument.email u)
      with (IUserDocument.email (set_isActive false u)).
    rewrite (User_findOne_email_stored _ userId (set_isActive false u));
      [done| |done].
    by eapply unique_email_index_update.
  - rewrite refreshAccessToken_cases, Hv. simpl. fold userId.
    by rewrite Hu'.
  - by rewrite getUserById_cases, Hu'.
Qed.

(** X22.  Setting the flag of an HR account and then setting it back to
    what it was restores the store exactly.  The refresh fingerprint in
    particular outlives a deactivation, so a refresh token issued before it
    is accepted again after the account is reactivated. *)
Theorem updateHrStatus_round_trip (userId : string) (flag : bool) db u :
  db !! userId = Some u ->
  IUserDocument.role u = HR ->
  snd (updateHrStatus userId
         (UpdateHrStatusInput.mk (IUserDocument.isActive u))
         (snd (updateHrStatus userId (UpdateHrStatusInput.mk flag) db))) =
  db.
Proof.
  intros Hu Hr. rewrite (updateHrStatus_cases userId _ db), Hu.
  rewrite decide_True by done. simpl.
  rewrite updateHrStatus_cases, lookup_insert_eq. simpl.
  rewrite decide_True by done. simpl.
  rewrite insert_insert_eq. apply insert_id. rewrite Hu. by destruct u.
Qed.

(** X6.  [createHrUser] without a password, for a new schema-valid
    address and a fresh id, stores an active account of role HR whose
    digest is that of the generated password, whatever the 16 random bytes
    are, and Login with the generated password then succeeds for it. *)
Theorem createHrUser_generated_password (_id salt : string)
    (randomBytes : list Byte.byte) (input : CreateHrInput.t) now db :
  let email := CreateHrInput.email input in
  let password := generateRandomPassword randomBytes in
  let doc :=
    IUserDocument.mk email (bcrypt_hash password BCRYPT_SALT_ROUNDS salt)
      HR true None in
  unique_email_index db ->
  CreateHrInput.password input = None ->
  length randomBytes = 16%nat ->
  userSchema.email_setters email = email ->
  userSchema.email_match email = true ->
  no_account_with_email email db ->
  db !! _id = None ->
  createHrUser _id salt randomBytes input db =
    (inr (UserObject.mk _id email HR true), <[_id := doc]> db) /\
  exists (response : LoginResponse.t) (db' : Users),
    loginUser env now (LoginInput.mk email password) (<[_id := doc]> db) =
      (inr response, db') /\
    LoginResponse.user response = PublicUser.mk _id email HR.
Proof.
  intros email password doc. subst email password doc.
  intros Hindex Hnopw Hlen Hnorm Hmatch Hnone Hfresh.
  set (doc := IUserDocument.mk _ _ _ _ _).
  split.
  { rewrite createHrUser_cases.
    rewrite (User_findOne_email_absent _ _ Hnone), Hnopw. simpl.
    destruct (User_create_cases _id salt (CreateHrInput.email input)
                (generateRandomPassword randomBytes) HR true db)
      as [(Hc & _)|(e & _ & [Hv|[Hs|Hn]])].
    - rewrite Hc, Hnorm. done.
    - rewrite Hnorm in Hv. unfold userSchema.validate in Hv.
      rewrite Hmatch in Hv.
      unfold userSchema.password_minlength in Hv.
      by rewrite (generateRandomPassword_length randomBytes Hlen) in Hv.
    - rewrite Hfresh in Hs. by destruct Hs.
    - rewrite Hnorm in Hn. done. }
  assert (Hindex' : unique_email_index (<[_id := doc]> db))
    by (by apply unique_email_index_insert).
  pose proof (User_findOne_email_stored (<[_id := doc]> db) _id doc Hindex'
                (lookup_insert_eq _ _ _)) as Hfind.
  change (IUserDocument.email doc) with (CreateHrInput.email input) in Hfind.
  assert (Hpw : comparePassword doc (generateRandomPassword randomBytes) = true)
    by apply bcrypt_compare_hash.
  eexists _, _. split.
  - rewrite loginUser_cases. cbn [LoginInput.email LoginInput.password].
    rewrite Hfind. cbn [IUserDocument.isActive doc]. rewrite Hpw.
    reflexivity.
  - done.
Qed.

End RouteProperties.

Section EndToEnd.
Context (env : Env) {jwt : Jsonwebtoken} {bcrypt : Bcrypt}
        {hashing : BcryptHash} {mongoose : MongooseErrors}.
Implicit Types (db : Users) (u : IUserDocument.t) (now t : Z).

(** X26.  From Login to a role gate: for fifteen minutes after a
    successful Login the access token authenticates, and a gate with
    allow-list [R] behind [authenticate] lets the request through exactly
    when the role the account had at login is in [R], answering 403
    otherwise.  Neither middleware consults the store, so this holds
    whatever happens to the account in the meantime. *)
Theorem protected_route_after_login t now (input : LoginInput.t) db
    (_id : string) u (R : list UserRole) :
  unique_email_index db ->
  db !! _id = Some u ->
  IUserDocument.email u = LoginInput.email input ->
  IUserDocument.isActive u = true ->
  comparePassword u (LoginInput.password input) = true ->
  now < t + 900 ->
  exists (response : LoginResponse.t) (db' : Users)
         (req' : AuthenticatedRequest.t),
    loginUser env t input db = (inr response, db') /\
    authenticate env now
      (AuthenticatedRequest.mk
         (Some ("Bearer " +:+ LoginResponse.accessToken response)) None) =
      Next req' /\
    requireRole R req' =
      if decide (IUserDocument.role u ∈ R) then Next req'
      else Respond 403 AUTH_ERRORS.FORBIDDEN.
Proof.
  intros Hindex Hu He Hactive Hpw Hnow.
  pose proof (loginUser_success env t input db _id u Hindex Hu He Hactive Hpw)
    as Hlogin.
  eexists (LoginResponse.mk _ _ _), _, _.
  cbn [LoginResponse.accessToken]. split_and!; [exact Hlogin| |].
  - apply authenticate_verify_returns.
    rewrite verify_access_token, decide_True by done.
    by rewrite decide_False by lia.
  - unfold requireRole, includes. simpl.
    by case_bool_decide; case_decide.
Qed.

(** X12.  The register route has no [authenticate] in front of it and
    takes the role from the request body: for a validated body with a new
    address, under a fresh id, it answers 201 and stores an active account
    with exactly the role asked for, and after a Login with the same
    credentials the access token passes the role gate for that role.
    Nothing on the way restricts which role may be asked for, SUPER_ADMIN
    included. *)
Theorem self_registration_with_role (_id salt email password : string)
    (role : UserRole) t now db :
  let body := RegisterInput.mk email password (Some role) in
  unique_email_index db ->
  userSchema.email_setters email = email ->
  userSchema.email_match email = true ->
  registerSchema.password_issues password = [] ->
  no_account_with_email email db ->
  db !! _id = None ->
  now < t + 900 ->
  exists (db1 db2 : Users) (response : LoginResponse.t)
         (req' : AuthenticatedRequest.t),
    route_register _id salt body db =
      (Success (ApiSuccessResponse.mk 201
                  ("User created successfully",
                   UserObject.mk _id email role true) None), db1) /\
    loginUser env t (LoginInput.mk email password) db1 = (inr response, db2) /\
    authenticate env now
      (AuthenticatedRequest.mk
         (Some ("Bearer " +:+ LoginResponse.accessToken response)) None) =
      Next req' /\
    requireRole [role] req' = Next req'.
Proof.
  intros body Hindex Hnorm Hmatch Hrules Hnone Hfresh Hnow. subst body.
  assert (Hvalid : userSchema.validate email password = true).
  { unfold userSchema.validate. rewrite Hmatch. simpl.
    by apply password_issues_minlength. }
  pose proof (registerUser_success _id salt
                (RegisterInput.mk email password (Some role)) db
                Hnorm Hvalid Hnone Hfresh) as Hreg.
  simpl in Hreg.
  set (doc := IUserDocument.mk _ _ _ _ _) in Hreg.
  assert (Hindex' : unique_email_index (<[_id := doc]> db))
    by (by apply unique_email_index_insert).
  assert (Hpw : comparePassword doc password = true)
    by apply bcrypt_compare_hash.
  pose proof (loginUser_success env t (LoginInput.mk email password)
                (<[_id := doc]> db) _id doc Hindex'
                (lookup_insert_eq _ _ _) eq_refl eq_refl Hpw) as Hlogin.
  eexists (<[_id := doc]> db), _, (LoginResponse.mk _ _ _), _.
  cbn [LoginResponse.accessToken].
  split_and!; [|exact Hlogin| |].
  - unfold route_register, registerController.
    rewrite (handle_sendSuccess (registerUser _id salt _)
               (fun user => ("User created successfully", user))).
    by rewrite Hreg.
  - apply authenticate_verify_returns.
    rewrite verify_access_token, decide_True by done.
    by rewrite decide_False by lia.
  - unfold requireRole, includes. simpl.
    rewrite bool_decide_eq_true_2; [done|].
    by apply list_elem_of_singleton.
Qed.

End EndToEnd.


(** ** The added code on concrete requests *)

Lemma requireRole_monotone_witness :
  let req :=
    AuthenticatedRequest.mk None
      (Some (Decoded.mk Sample.alice_claims 100 1000)) in
  [HR] ⊆ [HR; SUPER_ADMIN] /\
  requireRole [HR] req = Next req /\
  requireRole [HR; SUPER_ADMIN] req = Next req.
Proof.
  intros req.
  assert (Hsub : [HR] ⊆ [HR; SUPER_ADMIN]) by compute_done.
  assert (Hreq : requireRole [HR] req = Next req) by reflexivity.
  split_and!; [exact Hsub|exact Hreq|].
  exact (requireRole_monotone [HR] [HR; SUPER_ADMIN] req Hsub Hreq).
Defined.

Lemma services_keep_unique_email_index_witness :
  let login := LoginInput.mk "alice@example.com" "Str0ng!pass" in
  let status := UpdateHrStatusInput.mk false in
  let hr := CreateHrInput.mk "erin@example.com" "Erin" None in
  unique_email_index SampleApp.db /\
  unique_email_index (snd (loginUser Sample.env 100 login SampleApp.db)) /\
  unique_email_index (snd (logoutUser "d4ve" SampleApp.db)) /\
  unique_email_index (snd (updateHrStatus "d4ve" status SampleApp.db)) /\
  unique_email_index
    (snd (registerUser "c4r0l" "salt" SampleApp.carol_input SampleApp.db)) /\
  unique_email_index
    (snd (createHrUser "c4r0l" "salt" SampleApp.zero_bytes hr SampleApp.db)).
Proof.
  intros login status hr.
  assert (Hindex : unique_email_index SampleApp.db) by compute_done.
  split; [exact Hindex|].
  exact (services_keep_unique_email_index Sample.env 100 login "d4ve" "c4r0l"
           "salt" status SampleApp.carol_input SampleApp.zero_bytes hr
           SampleApp.db Hindex).
Defined.

Lemma refresh_after_login_witness :
  let input := LoginInput.mk "alice@example.com" "Str0ng!pass" in
  unique_email_index Sample.db /\
  Sample.db !! "a11ce" = Some Sample.alice /\
  comparePassword Sample.alice "Str0ng!pass" = true /\
  exists (response : LoginResponse.t) (db' : Users),
    loginUser Sample.env 100 input Sample.db = (inr response, db') /\
    refreshAccessToken Sample.env 500
      (RefreshTokenInput.mk (LoginResponse.refreshToken response)) db' =
      (if decide (100 + 604800 <= 500)
       then inl (Error AUTH_ERRORS.REFRESH_TOKEN_INVALID)
       else inr (generateAccessToken Sample.env 500 Sample.alice_claims),
       db').
Proof.
  intros input.
  assert (Hindex : unique_email_index Sample.db) by compute_done.
  assert (Hu : Sample.db !! "a11ce" = Some Sample.alice)
    by (vm_compute; reflexivity).
  assert (Hpw : comparePassword Sample.alice "Str0ng!pass" = true)
    by (vm_compute; reflexivity).
  split_and!; [exact Hindex|exact Hu|exact Hpw|].
  exact (refresh_after_login Sample.env 100 500 input Sample.db "a11ce"
           Sample.alice Hindex Hu eq_refl eq_refl Hpw).
Defined.

Lemma other_accounts_do_not_disturb_refresh_witness :
  let decoded := Decoded.mk (JWTPayload.mk "d4ve" None None) 100 604900 in
  let refresh d :=
    fst (refreshAccessToken Sample.env 500
           (RefreshTokenInput.mk SampleApp.hr_token) d) in
  jwt_verify SampleApp.hr_token (JWT_REFRESH_SECRET Sample.env) 500 =
    inr decoded /\
  "a11ce" <> "d4ve" /\
  refresh (snd (logoutUser "a11ce" SampleApp.db)) = refresh SampleApp.db.
Proof.
  intros decoded refresh.
  assert (Hv : jwt_verify SampleApp.hr_token (JWT_REFRESH_SECRET Sample.env)
                 500 = inr decoded) by (vm_compute; reflexivity).
  assert (Hne : "a11ce" <> "d4ve") by discriminate.
  split_and!; [exact Hv|exact Hne|].
  exact (proj1 (other_accounts_do_not_disturb_refresh Sample.env 100 500
                  SampleApp.hr_token decoded "a11ce"
                  (LoginInput.mk "alice@example.com" "Str0ng!pass")
                  SampleApp.db Hv Hne)).
Defined.

Lemma registerUser_duplicate_witness :
  let input := RegisterInput.mk "alice@example.com" "An0ther!pass" None in
  userSchema.email_setters "alice@example.com" = "alice@example.com" /\
  Sample.db !! "a11ce" = Some Sample.alice /\
  registerUser "c4r0l" "salt" input Sample.db =
    (inl (Error "User with this email already exists"), Sample.db).
Proof.
  intros input.
  assert (Hnorm : userSchema.email_setters "alice@example.com" =
                  "alice@example.com") by (vm_compute; reflexivity).
  assert (Hu : Sample.db !! "a11ce" = Some Sample.alice)
    by (vm_compute; reflexivity).
  refine (conj Hnorm (conj Hu _)).
  exact (registerUser_duplicate "c4r0l" "salt" input Sample.db "a11ce"
           Sample.alice Hnorm Hu eq_refl).
Defined.

Lemma registerUser_then_login_witness :
  let doc :=
    IUserDocument.mk "carol@example.com" (Model.hash "Str0ng!pass") EMPLOYEE
      true None in
  unique_email_index Sample.db /\
  userSchema.email_setters "carol@example.com" = "carol@example.com" /\
  userSchema.validate "carol@example.com" "Str0ng!pass" = true /\
  no_account_with_email "carol@example.com" Sample.db /\
  Sample.db !! "c4r0l" = None /\
  registerUser "c4r0l" "salt" SampleApp.carol_input Sample.db =
    (inr (UserObject.mk "c4r0l" "carol@example.com" EMPLOYEE true),
     <["c4r0l" := doc]> Sample.db) /\
  exists (response : LoginResponse.t) (db' : Users),
    loginUser Sample.env 100
      (LoginInput.mk "carol@example.com" "Str0ng!pass")
      (<["c4r0l" := doc]> Sample.db) = (inr response, db') /\
    LoginResponse.user response =
      PublicUser.mk "c4r0l" "carol@example.com" EMPLOYEE.
Proof.
  intros doc.
  assert (Hindex : unique_email_index Sample.db) by compute_done.
  assert (Hnorm : userSchema.email_setters "carol@example.com" =
                  "carol@example.com") by (vm_compute; reflexivity).
  assert (Hvalid : userSchema.validate "carol@example.com" "Str0ng!pass" =
                   true) by (vm_compute; reflexivity).
  assert (Hnone : no_account_with_email "carol@example.com" Sample.db)
    by compute_done.
  assert (Hfresh : Sample.db !! "c4r0l" = None) by (vm_compute; reflexivity).
  refine (conj Hindex (conj Hnorm (conj Hvalid (conj Hnone (conj Hfresh _))))).
  exact (registerUser_then_login Sample.env "c4r0l" "salt"
             SampleApp.carol_input 100 Sample.db Hindex Hnorm Hvalid Hnone
             Hfresh).
Defined.

Lemma session_life_cycle_witness :
  let input := LoginInput.mk "alice@example.com" "Str0ng!pass" in
  unique_email_index Sample.db /\
  Sample.db !! "a11ce" = Some Sample.alice /\
  "a11ce" <> "" /\
  comparePassword Sample.alice "Str0ng!pass" = true /\
  200 < 100 + 900 /\
  exists (response : LoginResponse.t) (db1 db2 : Users),
    let bearer :=
      AuthenticatedRequest.mk
        (Some ("Bearer " +:+ LoginResponse.accessToken response)) None in
    route_login Sample.env 100 input Sample.db =
      (Success (ApiSuccessResponse.mk 200 response None), db1) /\
    route_me Sample.env 200 bearer db1 =
      (Success (ApiSuccessResponse.mk 200
                  (UserObject.mk "a11ce" "alice@example.com" HR true) None),
       db1) /\
    route_logout Sample.env 200 bearer db1 =
      (Success (ApiSuccessResponse.mk 200 "Logged out successfully" None),
       db2) /\
    db2 !! "a11ce" = Some (IUserDocument.set_refreshToken None Sample.alice) /\
    route_refresh Sample.env 300
      (RefreshTokenInput.mk (LoginResponse.refreshToken response)) db2 =
      (Failed 500 AUTH_ERRORS.REFRESH_TOKEN_INVALID, db2).
Proof.
  intros input.
  assert (Hindex : unique_email_index Sample.db) by compute_done.
  assert (Hu : Sample.db !! "a11ce" = Some Sample.alice)
    by (vm_compute; reflexivity).
  assert (Hid : "a11ce" <> "") by discriminate.
  assert (Hpw : comparePassword Sample.alice "Str0ng!pass" = true)
    by (vm_compute; reflexivity).
  assert (Hnow : 200 < 100 + 900) by lia.
  split_and!; [exact Hindex|exact Hu|exact Hid|exact Hpw|exact Hnow|].
  exact (session_life_cycle Sample.env 100 200 300 input Sample.db "a11ce"
           Sample.alice Hindex Hu Hid eq_refl eq_refl Hpw Hnow).
Defined.

Lemma access_token_survives_logout_witness :
  let input := LoginInput.mk "alice@example.com" "Str0ng!pass" in
  unique_email_index Sample.db /\
  Sample.db !! "a11ce" = Some Sample.alice /\
  "a11ce" <> "" /\
  comparePassword Sample.alice "Str0ng!pass" = true /\
  200 < 100 + 900 /\
  999 < 100 + 900 /\
  exists (response : LoginResponse.t) (db1 db2 : Users),
    let bearer :=
      AuthenticatedRequest.mk
        (Some ("Bearer " +:+ LoginResponse.accessToken response)) None in
    loginUser Sample.env 100 input Sample.db = (inr response, db1) /\
    route_logout Sample.env 200 bearer db1 =
      (Success (ApiSuccessResponse.mk 200 "Logged out successfully" None),
       db2) /\
    route_me Sample.env 999 bearer db2 =
      (Success (ApiSuccessResponse.mk 200
                  (UserObject.mk "a11ce" "alice@example.com" HR true) None),
       db2).
Proof.
  intros input.
  assert (Hindex : unique_email_index Sample.db) by compute_done.
  assert (Hu : Sample.db !! "a11ce" = Some Sample.alice)
    by (vm_compute; reflexivity).
  assert (Hid : "a11ce" <> "") by discriminate.
  assert (Hpw : comparePassword Sample.alice "Str0ng!pass" = true)
    by (vm_compute; reflexivity).
  assert (Hnow : 200 < 100 + 900) by lia.
  assert (Hnow' : 999 < 100 + 900) by lia.
  split_and!; [exact Hindex|exact Hu|exact Hid|exact Hpw|exact Hnow
              |exact Hnow'|].
  exact (access_token_survives_logout Sample.env 100 200 999 input Sample.db
           "a11ce" Sample.alice Hindex Hu Hid eq_refl eq_refl Hpw Hnow Hnow').
Defined.

Lemma deactivated_account_locked_out_witness :
  let input := LoginInput.mk "dave@example.com" "Hr!pass123" in
  let decoded := Decoded.mk (JWTPayload.mk "d4ve" None None) 100 604900 in
  let db' :=
    snd (updateHrStatus "d4ve" (UpdateHrStatusInput.mk false) SampleApp.db) in
  unique_email_index SampleApp.db /\
  SampleApp.db !! "d4ve" = Some SampleApp.dave /\
  comparePassword SampleApp.dave "Hr!pass123" = true /\
  jwt_verify SampleApp.hr_token (JWT_REFRESH_SECRET Sample.env) 500 =
    inr decoded /\
  fst (updateHrStatus "d4ve" (UpdateHrStatusInput.mk false) SampleApp.db) =
    inr (UserObject.mk "d4ve" "dave@example.com" HR false) /\
  db' !! "d4ve" = Some (set_isActive false SampleApp.dave) /\
  loginUser Sample.env 500 input db' =
    (inl (Error AUTH_ERRORS.USER_INACTIVE), db') /\
  refreshAccessToken Sample.env 500
    (RefreshTokenInput.mk SampleApp.hr_token) db' =
    (inl (Error AUTH_ERRORS.USER_INACTIVE), db') /\
  getUserById "d4ve" db' = (inl (Error "User not found"), db').
Proof.
  intros input decoded db'.
  assert (Hindex : unique_email_index SampleApp.db) by compute_done.
  assert (Hu : SampleApp.db !! "d4ve" = Some SampleApp.dave)
    by (vm_compute; reflexivity).
  assert (Hpw : comparePassword SampleApp.dave "Hr!pass123" = true)
    by (vm_compute; reflexivity).
  assert (Hv : jwt_verify SampleApp.hr_token (JWT_REFRESH_SECRET Sample.env)
                 500 = inr decoded) by (vm_compute; reflexivity).
  refine (conj Hindex (conj Hu (conj Hpw (conj Hv _)))).
  exact (deactivated_account_locked_out Sample.env 500 input
             SampleApp.hr_token decoded SampleApp.db SampleApp.dave
             Hindex Hu eq_refl eq_refl Hpw eq_refl Hv).
Defined.

Lemma updateHrStatus_round_trip_witness :
  SampleApp.db !! "d4ve" = Some SampleApp.dave /\
  snd (updateHrStatus "d4ve" (UpdateHrStatusInput.mk true)
         (snd (updateHrStatus "d4ve" (UpdateHrStatusInput.mk false)
                 SampleApp.db))) = SampleApp.db.
Proof.
  assert (Hu : SampleApp.db !! "d4ve" = Some SampleApp.dave)
    by (vm_compute; reflexivity).
  split; [exact Hu|].
  exact (updateHrStatus_round_trip "d4ve" false SampleApp.db SampleApp.dave
           Hu eq_refl).
Defined.

Lemma generateRandomPassword_shape_witness :
  let password := generateRandomPassword SampleApp.zero_bytes in
  length SampleApp.zero_bytes = 16%nat /\
  String.length password = 16%nat /\
  Forall (fun c => In c (list_ascii_of_string charset))
         (list_ascii_of_string password) /\
  userSchema.password_minlength password = true.
Proof.
  intros password. split; [reflexivity|].
  exact (generateRandomPassword_shape SampleApp.zero_bytes eq_refl).
Defined.

Lemma generateRandomPassword_modulo_bias_witness :
  String.get 45 charset = Some "T"%char /\
  length (filter (fun b => charset_pick [b] 0 = "T")
                 (omap Byte.of_nat (seq 0 256))) = 4%nat.
Proof.
  split; [reflexivity|].
  exact (generateRandomPassword_modulo_bias 45 "T"%char eq_refl).
Defined.

Lemma createHrUser_generated_password_witness :
  let input := CreateHrInput.mk "erin@example.com" "Erin" None in
  let password := generateRandomPassword SampleApp.zero_bytes in
  let doc :=
    IUserDocument.mk "erin@example.com" (Model.hash password) HR true None in
  unique_email_index Sample.db /\
  userSchema.email_setters "erin@example.com" = "erin@example.com" /\
  userSchema.email_match "erin@example.com" = true /\
  no_account_with_email "erin@example.com" Sample.db /\
  Sample.db !! "e71n" = None /\
  createHrUser "e71n" "salt" SampleApp.zero_bytes input Sample.db =
    (inr (UserObject.mk "e71n" "erin@example.com" HR true),
     <["e71n" := doc]> Sample.db) /\
  exists (response : LoginResponse.t) (db' : Users),
    loginUser Sample.env 100 (LoginInput.mk "erin@example.com" password)
      (<["e71n" := doc]> Sample.db) = (inr response, db') /\
    LoginResponse.user response = PublicUser.mk "e71n" "erin@example.com" HR.
Proof.
  intros input password doc.
  assert (Hindex : unique_email_index Sample.db) by compute_done.
  assert (Hnorm : userSchema.email_setters "erin@example.com" =
                  "erin@example.com") by (vm_compute; reflexivity).
  assert (Hmatch : userSchema.email_match "erin@example.com" = true)
    by (vm_compute; reflexivity).
  assert (Hnone : no_account_with_email "erin@example.com" Sample.db)
    by compute_done.
  assert (Hfresh : Sample.db !! "e71n" = None) by (vm_compute; reflexivity).
  refine (conj Hindex (conj Hnorm (conj Hmatch (conj Hnone (conj Hfresh _))))).
  exact (createHrUser_generated_password Sample.env "e71n" "salt"
             SampleApp.zero_bytes input 100 Sample.db Hindex eq_refl eq_refl
             Hnorm Hmatch Hnone Hfresh).
Defined.

Lemma protected_route_after_login_witness :
  let input := LoginInput.mk "alice@example.com" "Str0ng!pass" in
  unique_email_index Sample.db /\
  Sample.db !! "a11ce" = Some Sample.alice /\
  comparePassword Sample.alice "Str0ng!pass" = true /\
  200 < 100 + 900 /\
  exists (response : LoginResponse.t) (db' : Users)
         (req' : AuthenticatedRequest.t),
    loginUser Sample.env 100 input Sample.db = (inr response, db') /\
    authenticate Sample.env 200
      (AuthenticatedRequest.mk
         (Some ("Bearer " +:+ LoginResponse.accessToken response)) None) =
      Next req' /\
    requireRole [SUPER_ADMIN] req' =
      if decide (HR ∈ [SUPER_ADMIN]) then Next req'
      else Respond 403 AUTH_ERRORS.FORBIDDEN.
Proof.
  intros input.
  assert (Hindex : unique_email_index Sample.db) by compute_done.
  assert (Hu : Sample.db !! "a11ce" = Some Sample.alice)
    by (vm_compute; reflexivity).
  assert (Hpw : comparePassword Sample.alice "Str0ng!pass" = true)
    by (vm_compute; reflexivity).
  assert (Hnow : 200 < 100 + 900) by lia.
  refine (conj Hindex (conj Hu (conj Hpw (conj Hnow _)))).
  exact (protected_route_after_login Sample.env 100 200 input Sample.db
           "a11ce" Sample.alice [SUPER_ADMIN] Hindex Hu eq_refl eq_refl Hpw
           Hnow).
Defined.

Lemma self_registration_with_role_witness :
  let body :=
    RegisterInput.mk "mallory@example.com" "Str0ng!pass" (Some SUPER_ADMIN) in
  unique_email_index Sample.db /\
  userSchema.email_setters "mallory@example.com" = "mallory@example.com" /\
  userSchema.email_match "mallory@example.com" = true /\
  registerSchema.password_issues "Str0ng!pass" = [] /\
  no_account_with_email "mallory@example.com" Sample.db /\
  Sample.db !! "m4l" = None /\
  200 < 100 + 900 /\
  exists (db1 db2 : Users) (response : LoginResponse.t)
         (req' : AuthenticatedRequest.t),
    route_register "m4l" "salt" body Sample.db =
      (Success (ApiSuccessResponse.mk 201
                  ("User created successfully",
                   UserObject.mk "m4l" "mallory@example.com" SUPER_ADMIN true)
                  None), db1) /\
    loginUser Sample.env 100
      (LoginInput.mk "mallory@example.com" "Str0ng!pass") db1 =
      (inr response, db2) /\
    authenticate Sample.env 200
      (AuthenticatedRequest.mk
         (Some ("Bearer " +:+ LoginResponse.accessToken response)) None) =
      Next req' /\
    requireRole [SUPER_ADMIN] req' = Next req'.
Proof.
  intros body.
  assert (Hindex : unique_email_index Sample.db) by compute_done.
  assert (Hnorm : userSchema.email_setters "mallory@example.com" =
                  "mallory@example.com") by (vm_compute; reflexivity).
  assert (Hmatch : userSchema.email_match "mallory@example.com" = true)
    by (vm_compute; reflexivity).
  assert (Hrules : registerSchema.password_issues "Str0ng!pass" = [])
    by (vm_compute; reflexivity).
  assert (Hnone : no_account_with_email "mallory@example.com" Sample.db)
    by compute_done.
  assert (Hfresh : Sample.db !! "m4l" = None) by (vm_compute; reflexivity).
  assert (Hnow : 200 < 100 + 900) by lia.
  refine (conj Hindex (conj Hnorm (conj Hmatch (conj Hrules (conj Hnone
            (conj Hfresh (conj Hnow _))))))).
  exact (self_registration_with_role Sample.env "m4l" "salt"
           "mallory@example.com" "Str0ng!pass" SUPER_ADMIN 100 200 Sample.db
           Hindex Hnorm Hmatch Hrules Hnone Hfresh Hnow).
Defined.
